(** * Sabermetrics engine: a shallow embedding of [src/sabermetrics_engine.py]

    The engine is a set of pure formulas over stat records.  A stat record is a
    Python [dict] from stat codes to numbers; a number is a Python [int]
    (unbounded) or a Python [float] (IEEE binary64).  Both are modelled as the
    code has them: [int] as [Z], [float] as Rocq's primitive binary64 floats
    (one NaN: its sign and payload are not represented), with Python's rules
    for mixed arithmetic, true division and exact mixed comparison.  A
    computation returns a value or raises: [ZeroDivisionError] and
    [OverflowError] from arithmetic, [KeyError] from [d[k]].

    Optional arguments are explicit here; their defaults are the constants
    [default_park_factor], [default_league_obp], [default_league_slg] and
    [default_metrics]. *)

From Stdlib Require Import ZArith Floats Lia.
From stdpp Require Import gmap strings list.

Set Warnings "-inexact-float".
Set Warnings "-clear-no-such-hyp".
Open Scope Z_scope.

(** ** Python numbers *)

Module PyNum.

Inductive num : Type :=
  | Int (z : Z)
  | Flt (f : float).

Inductive exn : Type :=
  | ZeroDivisionError
  | OverflowError
  | KeyError.

Inductive result (A : Type) : Type :=
  | Ok (a : A)
  | Raise (e : exn).
Arguments Ok {A} a.
Arguments Raise {A} e.

(** Sequencing: an exception of the first computation ends the whole. *)
Definition bind {A B : Type} (m : result A) (k : A → result B) : result B :=
  match m with
  | Ok a => k a
  | Raise e => Raise e
  end.

Notation "'let*' x ':=' m 'in' k" := (bind m (fun x => k))
  (at level 10, x name, m at level 100, k at level 200).

Definition raises {A} (m : result A) : bool :=
  match m with Ok _ => false | Raise _ => true end.

(** [float(z)]: correctly rounded (ties to even); [OverflowError] when the
    rounded value does not fit.  The rounded [spec_float] has a 53-bit
    mantissa, which [SF2Prim] turns into the primitive float. *)
Definition float_of_int (z : Z) : result float :=
  let f := SF2Prim (binary_normalize prec emax z 0 false) in
  if is_infinity f then Raise OverflowError else Ok f.

Definition to_float (a : num) : result float :=
  match a with
  | Int z => float_of_int z
  | Flt f => Ok f
  end.

(** An integer as an exact (unnormalised) binary float: mantissa [|z|],
    exponent 0. *)
Definition Z2SF (z : Z) : spec_float :=
  match z with
  | Z0 => S754_zero false
  | Zpos p => S754_finite false p 0
  | Zneg p => S754_finite true p 0
  end.

(** [int / int]: the correctly rounded quotient of the two integers. *)
Definition int_truediv (a b : Z) : result num :=
  if b =? 0 then Raise ZeroDivisionError
  else
    let f := SF2Prim (SFdiv prec emax (Z2SF a) (Z2SF b)) in
    if is_infinity f then Raise OverflowError else Ok (Flt f).

Definition is_zero_float (f : float) : bool := (f =? 0)%float.

(** [+], [-], [*]: on two [int]s the integer operation; otherwise both
    operands become floats (left one first) and the float operation, which
    never raises, is applied. *)
Definition py_add (a b : num) : result num :=
  match a, b with
  | Int x, Int y => Ok (Int (x + y))
  | _, _ =>
      let* fa := to_float a in let* fb := to_float b in
      Ok (Flt (fa + fb)%float)
  end.

Definition py_sub (a b : num) : result num :=
  match a, b with
  | Int x, Int y => Ok (Int (x - y))
  | _, _ =>
      let* fa := to_float a in let* fb := to_float b in
      Ok (Flt (fa - fb)%float)
  end.

Definition py_mul (a b : num) : result num :=
  match a, b with
  | Int x, Int y => Ok (Int (x * y))
  | _, _ =>
      let* fa := to_float a in let* fb := to_float b in
      Ok (Flt (fa * fb)%float)
  end.

(** [/]: both operands are converted before the divisor is tested. *)
Definition py_truediv (a b : num) : result num :=
  match a, b with
  | Int x, Int y => int_truediv x y
  | _, _ =>
      let* fa := to_float a in let* fb := to_float b in
      if is_zero_float fb then Raise ZeroDivisionError
      else Ok (Flt (fa / fb)%float)
  end.

Definition py_neg (a : num) : num :=
  match a with
  | Int x => Int (- x)
  | Flt f => Flt (- f)%float
  end.

(** Comparison of an [int] with a [float] is exact in Python: no conversion,
    no rounding.  [None] when the float is a NaN. *)
Definition cmp_Z_SF (z : Z) (f : spec_float) : option comparison :=
  match f with
  | S754_nan => None
  | S754_infinity s => Some (if s then Gt else Lt)
  | S754_zero _ => Some (z ?= 0)
  | S754_finite s m e =>
      let v := cond_Zopp s (Zpos m) in
      Some match e with
           | Zneg k => z * 2 ^ Zpos k ?= v
           | _ => z ?= v * 2 ^ e
           end
  end.

Definition py_cmp (a b : num) : option comparison :=
  match a, b with
  | Int x, Int y => Some (x ?= y)
  | Int x, Flt g => cmp_Z_SF x (Prim2SF g)
  | Flt f, Int y => CompOpp <$> cmp_Z_SF y (Prim2SF f)
  | Flt f, Flt g => SFcompare (Prim2SF f) (Prim2SF g)
  end.

Definition py_gt (a b : num) : bool :=
  match py_cmp a b with Some Gt => true | _ => false end.

Definition py_le (a b : num) : bool :=
  match py_cmp a b with Some Lt | Some Eq => true | _ => false end.

Definition py_eq (a b : num) : bool :=
  match py_cmp a b with Some Eq => true | _ => false end.

Definition is_nan_num (a : num) : bool :=
  match a with
  | Int _ => false
  | Flt f => is_nan f
  end.

(** [max(0, x)]: the first argument stays unless the second is greater. *)
Definition py_max0 (x : num) : num :=
  if py_gt x (Int 0) then x else Int 0.

(** Operators on computations: operands are evaluated left to right, then the
    operator is applied; the first exception wins. *)
Definition lift2 (op : num → num → result num) (x y : result num)
    : result num :=
  let* a := x in let* b := y in op a b.

Definition ret_num (a : num) : result num := Ok a.

End PyNum.

Export PyNum.
Coercion PyNum.ret_num : num >-> result.

Declare Scope py_scope.
Delimit Scope py_scope with py.
Notation "x + y" := (lift2 py_add x y) : py_scope.
Notation "x - y" := (lift2 py_sub x y) : py_scope.
Notation "x * y" := (lift2 py_mul x y) : py_scope.
Notation "x / y" := (lift2 py_truediv x y) : py_scope.

(** ** Dictionaries *)

Abbreviation record := (gmap string num).

(** [d.get(k, dflt)] *)
Definition get (d : record) (k : string) (dflt : num) : num :=
  default dflt (d !! k).

(** [d[k]] *)
Definition getitem (d : record) (k : string) : result num :=
  match d !! k with
  | Some v => Ok v
  | None => Raise KeyError
  end.

(** ** The engine *)

Module SabermetricsEngine.

(** The engine object: the two tables [__init__] builds.  A method that
    never reads [self] is a function of its other arguments. *)
Record engine : Type := {
  league_constants : record;
  woba_weights : record
}.

Definition __init__ : engine := {|
  league_constants := list_to_map [
    ("wOBA_scale"%string, Flt 1.255);
    ("wOBA_league"%string, Flt 0.320);
    ("R_per_game_league"%string, Flt 4.65);
    ("wRC_league"%string, Int 100);
    ("FIP_constant"%string, Flt 3.10);
    ("park_factor_neutral"%string, Flt 1.000)
  ];
  woba_weights := list_to_map [
    ("uBB"%string, Flt 0.690);
    ("HBP"%string, Flt 0.722);
    ("1B"%string, Flt 0.888);
    ("2B"%string, Flt 1.271);
    ("3B"%string, Flt 1.616);
    ("HR"%string, Flt 2.101)
  ]
|}.

(** Default values of the optional arguments. *)
Definition default_park_factor : num := Flt 1.0.
Definition default_league_obp : num := Flt 0.320.
Definition default_league_slg : num := Flt 0.425.

Definition calculate_basic_stats (stats : record) : result record :=
  let ab := get stats "AB" (Int 0) in
  let h := get stats "H" (Int 0) in
  let bb := get stats "BB" (Int 0) in
  let sf := get stats "SF" (Int 0) in
  let hbp := get stats "HBP" (Int 0) in
  let* pa := (ab + bb + sf + hbp)%py in
  let basic_stats : record := ∅ in
  let* avg := (if py_gt ab (Int 0) then h / ab else Ok (Int 0))%py in
  let basic_stats := <["AVG" := avg]> basic_stats in
  let* obp := (if py_gt pa (Int 0) then (h + bb + hbp) / pa
               else Ok (Int 0))%py in
  let basic_stats := <["OBP" := obp]> basic_stats in
  (* the default of [stats.get('1B', ...)] is evaluated whether or not the key
     is there *)
  let* dflt := (h - get stats "2B" (Int 0) - get stats "3B" (Int 0)
                - get stats "HR" (Int 0))%py in
  let singles := get stats "1B" dflt in
  let* total_bases := (singles + Int 2 * get stats "2B" (Int 0)
                       + Int 3 * get stats "3B" (Int 0)
                       + Int 4 * get stats "HR" (Int 0))%py in
  let* slg := (if py_gt ab (Int 0) then total_bases / ab
               else Ok (Int 0))%py in
  let basic_stats := <["SLG" := slg]> basic_stats in
  let* ops := (getitem basic_stats "OBP" + getitem basic_stats "SLG")%py in
  let basic_stats := <["OPS" := ops]> basic_stats in
  Ok basic_stats.

Definition calculate_woba (self : engine) (stats : record) : result num :=
  let* bb := (get stats "BB" (Int 0) - get stats "IBB" (Int 0))%py in
  let hbp := get stats "HBP" (Int 0) in
  let singles := get stats "1B" (Int 0) in
  let doubles := get stats "2B" (Int 0) in
  let triples := get stats "3B" (Int 0) in
  let hr := get stats "HR" (Int 0) in
  let ab := get stats "AB" (Int 0) in
  let sf := get stats "SF" (Int 0) in
  let* numerator := (getitem (woba_weights self) "uBB" * bb
                     + getitem (woba_weights self) "HBP" * hbp
                     + getitem (woba_weights self) "1B" * singles
                     + getitem (woba_weights self) "2B" * doubles
                     + getitem (woba_weights self) "3B" * triples
                     + getitem (woba_weights self) "HR" * hr)%py in
  let* denominator := (ab + bb + sf + hbp)%py in
  (if py_gt denominator (Int 0) then numerator / denominator
   else Ok (Int 0))%py.

Definition calculate_wrc_plus (self : engine) (stats : record)
    (park_factor : num) : result num :=
  let* woba := calculate_woba self stats in
  (((woba - getitem (league_constants self) "wOBA_league")
     / getitem (league_constants self) "wOBA_scale"
   + getitem (league_constants self) "R_per_game_league")
  * Int 100 / park_factor)%py.

Definition calculate_babip (stats : record) : result num :=
  let h := get stats "H" (Int 0) in
  let hr := get stats "HR" (Int 0) in
  let ab := get stats "AB" (Int 0) in
  let k := get stats "K" (Int 0) in
  let sf := get stats "SF" (Int 0) in
  let* balls_in_play := (ab - k - hr + sf)%py in
  let* hits_in_play := (h - hr)%py in
  (if py_gt balls_in_play (Int 0) then hits_in_play / balls_in_play
   else Ok (Int 0))%py.

Definition calculate_iso (stats : record) : result num :=
  let* basic := calculate_basic_stats stats in
  (getitem basic "SLG" - getitem basic "AVG")%py.

Definition calculate_pitcher_fip (self : engine) (stats : record)
    : result num :=
  let hr := get stats "HR" (Int 0) in
  let bb := get stats "BB" (Int 0) in
  let hbp := get stats "HBP" (Int 0) in
  let k := get stats "K" (Int 0) in
  let ip := get stats "IP" (Int 0) in
  if py_le ip (Int 0) then Ok (Int 0)
  else
    ((Int 13 * hr + Int 3 * (bb + hbp) - Int 2 * k) / ip
     + getitem (league_constants self) "FIP_constant")%py.

Definition calculate_pitcher_whip (stats : record) : result num :=
  let bb := get stats "BB" (Int 0) in
  let h := get stats "H" (Int 0) in
  let ip := get stats "IP" (Int 0) in
  (if py_gt ip (Int 0) then (bb + h) / ip else Ok (Int 0))%py.

Definition calculate_ops_plus (stats : record)
    (park_factor league_obp league_slg : num) : result num :=
  let* basic := calculate_basic_stats stats in
  let* obp_ratio := (if py_gt league_obp (Int 0)
                     then getitem basic "OBP" / league_obp
                     else Ok (Int 1))%py in
  let* slg_ratio := (if py_gt league_slg (Int 0)
                     then getitem basic "SLG" / league_slg
                     else Ok (Int 1))%py in
  (Int 100 * (obp_ratio + slg_ratio - Int 1) / park_factor)%py.

Definition calculate_comprehensive_player_metrics (self : engine)
    (batting_stats : record) (park_factor : num) : result record :=
  let metrics : record := ∅ in
  let* basic := calculate_basic_stats batting_stats in
  (* [metrics.update(basic)]: the keys of [basic] win *)
  let metrics := basic ∪ metrics in
  let* woba := calculate_woba self batting_stats in
  let metrics := <["wOBA" := woba]> metrics in
  let* wrc := calculate_wrc_plus self batting_stats park_factor in
  let metrics := <["wRC+" := wrc]> metrics in
  let* babip := calculate_babip batting_stats in
  let metrics := <["BABIP" := babip]> metrics in
  let* iso := calculate_iso batting_stats in
  let metrics := <["ISO" := iso]> metrics in
  let* opsp := calculate_ops_plus batting_stats park_factor
                 default_league_obp default_league_slg in
  let metrics := <["OPS+" := opsp]> metrics in
  let ab := get batting_stats "AB" (Int 0) in
  let bb := get batting_stats "BB" (Int 0) in
  let k := get batting_stats "K" (Int 0) in
  let* c1 := (ab + bb)%py in
  let* bb_rate := (if py_gt c1 (Int 0) then bb / (ab + bb)
                   else Ok (Int 0))%py in
  let metrics := <["BB_Rate" := bb_rate]> metrics in
  let* c2 := (ab + bb)%py in
  let* k_rate := (if py_gt c2 (Int 0) then k / (ab + bb)
                  else Ok (Int 0))%py in
  let metrics := <["K_Rate" := k_rate]> metrics in
  Ok metrics.

Definition calculate_pitcher_metrics (self : engine)
    (pitching_stats : record) : result record :=
  let metrics : record := ∅ in
  let ip := get pitching_stats "IP" (Int 0) in
  let er := get pitching_stats "ER" (Int 0) in
  let h := get pitching_stats "H" (Int 0) in
  let bb := get pitching_stats "BB" (Int 0) in
  let k := get pitching_stats "K" (Int 0) in
  let* era := (if py_gt ip (Int 0) then (er * Int 9) / ip
               else Ok (Int 0))%py in
  let metrics := <["ERA" := era]> metrics in
  let* whip := calculate_pitcher_whip pitching_stats in
  let metrics := <["WHIP" := whip]> metrics in
  let* fip := calculate_pitcher_fip self pitching_stats in
  let metrics := <["FIP" := fip]> metrics in
  let* k9 := (if py_gt ip (Int 0) then (k * Int 9) / ip
              else Ok (Int 0))%py in
  let metrics := <["K_per_9" := k9]> metrics in
  let* bb9 := (if py_gt ip (Int 0) then (bb * Int 9) / ip
               else Ok (Int 0))%py in
  let metrics := <["BB_per_9" := bb9]> metrics in
  let* hr9 := (if py_gt ip (Int 0)
               then (get pitching_stats "HR" (Int 0) * Int 9) / ip
               else Ok (Int 0))%py in
  let metrics := <["HR_per_9" := hr9]> metrics in
  let* kbb := (if py_gt bb (Int 0) then k / bb
               else if py_gt k (Int 0) then Ok k else Ok (Int 0))%py in
  let metrics := <["K_BB_ratio" := kbb]> metrics in
  Ok metrics.

(** One row of the comparison table. *)
Record comparison_row : Type := {
  player1 : num;
  player2 : num;
  difference : num;
  player1_better : bool
}.

Definition default_metrics : list string :=
  ["AVG"; "OBP"; "SLG"; "OPS"; "wOBA"; "wRC+"; "BABIP"; "ISO"]%string.

(** The [for metric in metrics] loop of [compare_players]. *)
Fixpoint compare_loop (p1_metrics p2_metrics : record) (metrics : list string)
    (comparison : gmap string comparison_row)
    : result (gmap string comparison_row) :=
  match metrics with
  | [] => Ok comparison
  | metric :: rest =>
      match p1_metrics !! metric, p2_metrics !! metric with
      | Some v1, Some v2 =>
          let* d := py_sub v1 v2 in
          compare_loop p1_metrics p2_metrics rest
            (<[metric := {| player1 := v1; player2 := v2; difference := d;
                            player1_better := py_gt v1 v2 |}]> comparison)
      | _, _ => compare_loop p1_metrics p2_metrics rest comparison
      end
  end.

Definition compare_players (self : engine)
    (player1_stats player2_stats : record) (metrics : option (list string))
    : result (gmap string comparison_row) :=
  let metrics := default default_metrics metrics in
  let* p1_metrics :=
    calculate_comprehensive_player_metrics self player1_stats
      default_park_factor in
  let* p2_metrics :=
    calculate_comprehensive_player_metrics self player2_stats
      default_park_factor in
  compare_loop p1_metrics p2_metrics metrics ∅.

(** The table [calculate_war_approximation] builds on each call. *)
Definition position_adjustments : record :=
  list_to_map [
    ("C"%string, Flt 12.5); ("1B"%string, Flt (-12.5));
    ("2B"%string, Flt 2.5); ("3B"%string, Flt 2.5);
    ("SS"%string, Flt 7.5); ("LF"%string, Flt (-7.5));
    ("CF"%string, Flt 2.5); ("RF"%string, Flt (-7.5));
    ("DH"%string, Flt (-17.5))
  ].

Definition calculate_war_approximation (self : engine)
    (batting_stats : record) (fielding_stats : option record)
    (position : string) : result num :=
  let* wrc_plus :=
    calculate_wrc_plus self batting_stats default_park_factor in
  let* pa := (get batting_stats "AB" (Int 0) + get batting_stats "BB" (Int 0)
              + get batting_stats "SF" (Int 0)
              + get batting_stats "HBP" (Int 0))%py in
  let* offensive_value := ((wrc_plus - Int 100) / Int 100
                           * (pa / Int 700) * Int 20)%py in
  let* position_adj := (get position_adjustments position (Int 0)
                        * (pa / Int 700))%py in
  let* replacement_level := (Flt 2.0 * (pa / Int 700))%py in
  let* war_approx :=
    (offensive_value + position_adj + replacement_level)%py in
  Ok (py_max0 war_approx).

End SabermetricsEngine.

Import SabermetricsEngine.

(** * The demonstration script and the dashboard *)

(** ** Further operations on Python numbers *)

Definition py_ge (a b : num) : bool :=
  match py_cmp a b with Some Gt | Some Eq => true | _ => false end.

Definition py_lt (a b : num) : bool :=
  match py_cmp a b with Some Lt => true | _ => false end.

(** [min(a, b)]: [b] when [b < a], else [a]. *)
Definition py_min (a b : num) : num :=
  if py_lt b a then b else a.

(** [format(x, '.3f')] and the like: an [int] is converted to a [float]
    first.  The text produced is not modelled. *)
Definition format_f (x : num) : result unit :=
  let* _ := to_float x in Ok tt.

(** ** [MLBAnalyticsDemo]

    The methods print what they compute.  The model leaves the printing
    out: each method returns what it selects for printing, or the exception
    that ends it. *)

Module MLBAnalyticsDemo.

Record batter_info : Type := {
  team : string;
  position : string;
  stats : record
}.

(** The object: its engine and the batters of its sample data. *)
Record demo : Type := {
  engine : SabermetricsEngine.engine;
  batters : gmap string batter_info
}.

Inductive statistical_edge : Type :=
  | STATISTICAL_EDGE_player1
  | STATISTICAL_EDGE_player2
  | STATISTICALLY_EVEN.

Definition comparison_metrics : list string :=
  ["AVG"; "OBP"; "SLG"; "wOBA"; "wRC+"; "ISO"; "BABIP"]%string.

(** The loop over [comparison_metrics], with its two counters. *)
Fixpoint comparison_loop (p1_metrics p2_metrics : record)
    (metrics : list string) (p1_wins p2_wins : Z) : result (Z * Z) :=
  match metrics with
  | [] => Ok (p1_wins, p2_wins)
  | metric :: rest =>
      let* p1_val := getitem p1_metrics metric in
      let* p2_val := getitem p2_metrics metric in
      let wins :=
        if py_gt p1_val p2_val then (p1_wins + 1, p2_wins)
        else if py_gt p2_val p1_val then (p1_wins, p2_wins + 1)
        else (p1_wins, p2_wins) in
      let* _ := format_f p1_val in
      let* _ := format_f p2_val in
      comparison_loop p1_metrics p2_metrics rest (fst wins) (snd wins)
  end.

Definition batter (self : demo) (name : string) : result batter_info :=
  match batters self !! name with
  | Some info => Ok info
  | None => Raise KeyError
  end.

(** Returns the two tallies and the verdict. *)
Definition demo_player_comparison (self : demo)
    : result (Z * Z * statistical_edge) :=
  let player1 := "Mookie Betts"%string in
  let player2 := "Mike Trout"%string in
  let* p1_info := batter self player1 in
  let* p2_info := batter self player2 in
  let* p1_metrics :=
    calculate_comprehensive_player_metrics (engine self) (stats p1_info)
      default_park_factor in
  let* p2_metrics :=
    calculate_comprehensive_player_metrics (engine self) (stats p2_info)
      default_park_factor in
  let* wins := comparison_loop p1_metrics p2_metrics comparison_metrics 0 0 in
  let p1_wins := fst wins in
  let p2_wins := snd wins in
  Ok (p1_wins, p2_wins,
      if p2_wins <? p1_wins then STATISTICAL_EDGE_player1
      else if p1_wins <? p2_wins then STATISTICAL_EDGE_player2
      else STATISTICALLY_EVEN).

Inductive player_rating : Type :=
  | MVP_CANDIDATE
  | ALL_STAR_LEVEL
  | ABOVE_AVERAGE
  | LEAGUE_AVERAGE
  | BELOW_AVERAGE.

(** The sentence that ends the analysis. *)
Inductive league_standing : Type :=
  | better_than_league_average
  | below_league_average.

(** Returns the rating and the sentence chosen. *)
Definition evaluate_player_performance (metrics : record)
    : result (player_rating * league_standing) :=
  let* wrc_plus := getitem metrics "wRC+" in
  let rating :=
    if py_ge wrc_plus (Int 140) then MVP_CANDIDATE
    else if py_ge wrc_plus (Int 130) then ALL_STAR_LEVEL
    else if py_ge wrc_plus (Int 115) then ABOVE_AVERAGE
    else if py_ge wrc_plus (Int 100) then LEAGUE_AVERAGE
    else BELOW_AVERAGE in
  let* _ := format_f wrc_plus in
  if py_gt wrc_plus (Int 100) then
    let* d := (wrc_plus - Int 100)%py in
    let* _ := format_f d in
    Ok (rating, better_than_league_average)
  else
    let* d := (Int 100 - wrc_plus)%py in
    let* _ := format_f d in
    Ok (rating, below_league_average).

Inductive pitcher_rating : Type :=
  | P_ACE_LEVEL
  | P_ABOVE_AVERAGE
  | P_LEAGUE_AVERAGE
  | P_BELOW_AVERAGE.

(** What the comparison of FIP with ERA is said to suggest. *)
Inductive fip_reading : Type :=
  | unlucky_expect_improvement
  | lucky_expect_regression
  | performance_is_sustainable.

(** Returns the rating and the reading chosen. *)
Definition evaluate_pitcher_performance (metrics : record)
    : result (pitcher_rating * fip_reading) :=
  let* era := getitem metrics "ERA" in
  let* fip := getitem metrics "FIP" in
  let rating :=
    if py_lt era (Flt 3.00) then P_ACE_LEVEL
    else if py_lt era (Flt 4.00) then P_ABOVE_AVERAGE
    else if py_lt era (Flt 4.50) then P_LEAGUE_AVERAGE
    else P_BELOW_AVERAGE in
  let* _ := format_f era in
  let* _ := format_f fip in
  Ok (rating,
      if py_lt fip era then unlucky_expect_improvement
      else if py_gt fip era then lucky_expect_regression
      else performance_is_sustainable).

End MLBAnalyticsDemo.

(** ** The dashboard *)

Module Dashboard.

Definition get_analytics_engine : engine := __init__.

(** The points of the radar chart: the categories with their values, in the
    order of [normalized_metrics].  The figure built from them is not
    modelled. *)
Definition create_player_metrics_chart (player_stats : record)
    : result (list (string * num)) :=
  let engine := get_analytics_engine in
  let* metrics :=
    calculate_comprehensive_player_metrics engine player_stats
      default_park_factor in
  let* avg := (getitem metrics "AVG" * Int 400)%py in
  let* obp := (getitem metrics "OBP" * Int 250)%py in
  let* slg := (getitem metrics "SLG" * Int 200)%py in
  let* wrc := getitem metrics "wRC+" in
  let* iso := (getitem metrics "ISO" * Int 400)%py in
  let* babip := (getitem metrics "BABIP" * Int 330)%py in
  let normalized_metrics :=
    [("AVG", py_min (Int 100) avg); ("OBP", py_min (Int 100) obp);
     ("SLG", py_min (Int 100) slg); ("wRC+", py_min (Int 100) wrc);
     ("ISO", py_min (Int 100) iso);
     ("BABIP", py_min (Int 100) babip)]%string in
  Ok normalized_metrics.

End Dashboard.

(** * Vocabulary of the statements *)

(** A dictionary literal. *)
Definition dict (l : list (string * num)) : record := list_to_map l.

(** ** Kinds of records and values *)

(** Every stat the record holds is the integer [0]; absent stats default to
    [0] as well. *)
Definition all_zero (stats : record) : Prop :=
  ∀ k v, stats !! k = Some v → v = Int 0.

(** Every stat the record holds is a Python [int]. *)
Definition int_record (stats : record) : Prop :=
  ∀ k v, stats !! k = Some v → ∃ z, v = Int z.

(** The integer a record holds for a stat, [d] when it holds none. *)
Definition zget (stats : record) (k : string) (d : Z) : Z :=
  match stats !! k with
  | Some (Int z) => z
  | _ => d
  end.

(** A value the engine stores as a ratio: the quotient, a [float], or the
    integer sentinel [0]. *)
Definition ratio_value (v : num) : Prop := v = Int 0 ∨ ∃ f, v = Flt f.

(** A league ratio of OPS+: a float quotient, or the substitute [1]. *)
Definition league_ratio_value (r : num) : Prop := r = Int 1 ∨ ∃ f, r = Flt f.

(** [d1] is the negative of [d2], neither being a NaN: [d1 == -d2] holds in
    Python, and [d1] is the very number [-d2] unless both are a zero (which
    may differ in sign, as [0.0] and [-0.0]). *)
Definition exact_negatives (d1 d2 : num) : Prop :=
  py_eq d1 (py_neg d2) = true
  ∧ (d1 = py_neg d2 ∨ (py_eq d1 (Int 0) = true ∧ py_eq d2 (Int 0) = true)).

(** ** Formulas *)

(** The linear-weighted sum of the wOBA numerator, with the weights of
    [__init__]. *)
Definition linear_weighted_sum (ubb hbp singles doubles triples hr : num)
    : result num :=
  (Flt 0.690 * ubb + Flt 0.722 * hbp + Flt 0.888 * singles
   + Flt 1.271 * doubles + Flt 1.616 * triples + Flt 2.101 * hr)%py.

(** wOBA as the specification words it: the denominator [AB + BB + SF + HBP]
    counts the record's total walks. *)
Definition woba_total_walks (stats : record) : result num :=
  let* ubb := (get stats "BB" (Int 0) - get stats "IBB" (Int 0))%py in
  let* numerator :=
    linear_weighted_sum ubb (get stats "HBP" (Int 0)) (get stats "1B" (Int 0))
      (get stats "2B" (Int 0)) (get stats "3B" (Int 0))
      (get stats "HR" (Int 0)) in
  let* denominator :=
    (get stats "AB" (Int 0) + get stats "BB" (Int 0) + get stats "SF" (Int 0)
     + get stats "HBP" (Int 0))%py in
  (if py_gt denominator (Int 0) then numerator / denominator
   else Ok (Int 0))%py.


(** The metrics of an all-zero record: nine ratios are the sentinel [0];
    wRC+ and OPS+ are not. *)
Definition all_zero_metrics : record :=
  dict [("AVG", Int 0); ("OBP", Int 0); ("SLG", Int 0); ("OPS", Int 0);
        ("wOBA", Int 0); ("wRC+", Flt 439.50199203187259);
        ("BABIP", Int 0); ("ISO", Int 0); ("OPS+", Flt (-100));
        ("BB_Rate", Int 0); ("K_Rate", Int 0)]%string.

(** ** Records used as examples *)

(** Two batting lines of the sample data; the first is also the module's own
    demo. *)
Definition trout_stats : record :=
  dict [("AB", Int 473); ("H", Int 134); ("BB", Int 89); ("HBP", Int 3);
        ("SF", Int 4); ("1B", Int 82); ("2B", Int 21); ("3B", Int 1);
        ("HR", Int 30); ("K", Int 124); ("IBB", Int 18)]%string.

Definition betts_stats : record :=
  dict [("AB", Int 527); ("H", Int 155); ("BB", Int 96); ("HBP", Int 15);
        ("SF", Int 3); ("1B", Int 97); ("2B", Int 33); ("3B", Int 3);
        ("HR", Int 39); ("K", Int 98); ("IBB", Int 11); ("RBI", Int 107);
        ("R", Int 122); ("SB", Int 16)]%string.

(** Every stat code of a batting record, all at 0. *)
Definition zero_stats : record :=
  dict [("AB", Int 0); ("H", Int 0); ("BB", Int 0); ("IBB", Int 0);
        ("HBP", Int 0); ("SF", Int 0); ("SH", Int 0); ("K", Int 0);
        ("2B", Int 0); ("3B", Int 0); ("HR", Int 0); ("RBI", Int 0);
        ("R", Int 0); ("SB", Int 0); ("CS", Int 0)]%string.

(** Explicit singles that make SLG smaller than AVG. *)
Definition no_singles_stats : record :=
  dict [("AB", Int 10); ("H", Int 5); ("1B", Int 0)]%string.

(** One at-bat, a single and an intentional walk. *)
Definition intentional_walk_stats : record :=
  dict [("AB", Int 1); ("H", Int 1); ("1B", Int 1); ("BB", Int 1);
        ("IBB", Int 1)]%string.

(** No at-bat and one walk. *)
Definition walk_only_stats : record :=
  dict [("AB", Int 0); ("H", Int 0); ("BB", Int 1)]%string.

(** One hit and two doubles: inconsistent counts, no ["1B"] key. *)
Definition inconsistent_stats : record :=
  dict [("AB", Int 4); ("H", Int 1); ("2B", Int 2)]%string.

(** A pitcher with strikeouts and no walk. *)
Definition no_walk_stats : record :=
  dict [("IP", Flt 10.0); ("K", Int 7); ("BB", Int 0); ("ER", Int 2);
        ("H", Int 6)]%string.

(** ** Vocabulary of the further properties *)

(** The metric names of [calculate_comprehensive_player_metrics] and of
    [calculate_pitcher_metrics]. *)
Definition metric_names : list string :=
  ["AVG"; "OBP"; "SLG"; "OPS"; "wOBA"; "wRC+"; "BABIP"; "ISO"; "OPS+";
   "BB_Rate"; "K_Rate"]%string.

Definition pitcher_metric_names : list string :=
  ["ERA"; "WHIP"; "FIP"; "K_per_9"; "BB_per_9"; "HR_per_9";
   "K_BB_ratio"]%string.

(** The metric sets of the two sample batting lines. *)
Definition trout_metrics : record :=
  dict [("AVG", Flt 0.28329809725158561); ("OBP", Flt 0.39718804920913886);
        ("SLG", Flt 0.52219873150105711); ("OPS", Flt 0.91938678071019597);
        ("wOBA", Flt 0.39076043557168783); ("wRC+", Flt 470.63828171885962);
        ("BABIP", Flt 0.32198142414860681); ("ISO", Flt 0.2389006342494715);
        ("OPS+", Flt 146.99155514281051);
        ("BB_Rate", Flt 0.15836298932384341);
        ("K_Rate", Flt 0.2206405693950178)]%string.

Definition betts_metrics : record :=
  dict [("AVG", Flt 0.29411764705882354); ("OBP", Flt 0.41497659906396256);
        ("SLG", Flt 0.62239089184060725); ("OPS", Flt 1.0373674909045698);
        ("wOBA", Flt 0.45134285714285716); ("wRC+", Flt 475.46556630620375);
        ("BABIP", Flt 0.2951653944020356); ("ISO", Flt 0.32827324478178371);
        ("OPS+", Flt 176.12510293469001);
        ("BB_Rate", Flt 0.15409309791332262);
        ("K_Rate", Flt 0.15730337078651685)]%string.

(** Gerrit Cole's line of the sample data. *)
Definition cole_stats : record :=
  dict [("W", Int 15); ("L", Int 4); ("ERA", Flt 2.63); ("G", Int 33);
        ("GS", Int 33); ("IP", Flt 222.2); ("H", Int 180); ("ER", Int 65);
        ("HR", Int 28); ("BB", Int 45); ("K", Int 222); ("HBP", Int 7);
        ("WHIP", Flt 1.01)]%string.

Definition cole_metrics : record :=
  dict [("ERA", Flt 2.632763276327633); ("WHIP", Flt 1.0126012601260126);
        ("FIP", Flt 3.4420342034203424); ("K_per_9", Flt 8.9918991899189926);
        ("BB_per_9", Flt 1.8226822682268227);
        ("HR_per_9", Flt 1.1341134113411342);
        ("K_BB_ratio", Flt 4.9333333333333336)]%string.

(** A demo object holding the two batters of the comparison. *)
Definition betts_trout_demo : MLBAnalyticsDemo.demo :=
  {| MLBAnalyticsDemo.engine := __init__;
     MLBAnalyticsDemo.batters :=
       list_to_map [
         ("Mookie Betts"%string,
          {| MLBAnalyticsDemo.team := "LAD";
             MLBAnalyticsDemo.position := "OF";
             MLBAnalyticsDemo.stats := betts_stats |});
         ("Mike Trout"%string,
          {| MLBAnalyticsDemo.team := "LAA";
             MLBAnalyticsDemo.position := "OF";
             MLBAnalyticsDemo.stats := trout_stats |})] |}.

(** ** Kinds of floats, of computations and of records *)

(** A float that is a zero or a NaN. *)
Definition zero_or_nan (f : float) : Prop :=
  (∃ s, Prim2SF f = S754_zero s) ∨ Prim2SF f = S754_nan.

(** The only exception a computation can raise is [OverflowError]: an
    integer too large for a [float]. *)
Definition only_overflow {A : Type} (r : result A) : Prop :=
  ∀ e, r = Raise e → e = OverflowError.

(** The counting stats of a pitching record. *)
Definition pitching_counts : list string :=
  ["ER"; "H"; "BB"; "K"; "HR"; "HBP"]%string.

(** A pitching record whose counting stats are integers where present; the
    innings pitched may be any number (whole, or fractional as in [186.2]),
    and so may every other entry. *)
Definition pitching_record (stats : record) : Prop :=
  ∀ k, k ∈ pitching_counts → ∃ z, get stats k (Int 0) = Int z.

(** The stats the batting formulas read. *)
Definition batting_codes : list string :=
  ["AB"; "H"; "BB"; "IBB"; "HBP"; "SF"; "K"; "1B"; "2B"; "3B"; "HR"]%string.

(** The stats the pitching formulas read. *)
Definition pitching_codes : list string :=
  ["IP"; "ER"; "H"; "BB"; "K"; "HR"; "HBP"]%string.

(** Two records hold the same entries under the given keys. *)
Definition agree_on (keys : list string) (s1 s2 : record) : Prop :=
  ∀ k, k ∈ keys → s1 !! k = s2 !! k.



(** Two batting lines whose OPS overflows to infinity. *)
Definition overflowing_stats_a : record :=
  dict [("AB", Int 1); ("H", Int (10 ^ 308))]%string.

Definition overflowing_stats_b : record :=
  dict [("AB", Int 2); ("H", Int (3 * 10 ^ 308))]%string.

(** * Properties *)

(** ** Reasoning about computations *)

Section Results.

Context {A B : Type}.

Lemma bind_Ok_inv (m : result A) (k : A → result B) (b : B) :
  bind m k = Ok b → ∃ a, m = Ok a ∧ k a = Ok b.
Proof. destruct m as [a|e]; cbn; [eauto | discriminate]. Qed.

Lemma bind_ext (m : result A) (k k' : A → result B) :
  (∀ a, k a = k' a) → bind m k = bind m k'.
Proof. intros E. destruct m; cbn; auto. Qed.

End Results.

Lemma lift2_Ok_inv op (x y : result num) (c : num) :
  lift2 op x y = Ok c → ∃ a b, x = Ok a ∧ y = Ok b ∧ op a b = Ok c.
Proof.
  unfold lift2. intros H.
  apply bind_Ok_inv in H as (a & -> & H).
  apply bind_Ok_inv in H as (b & -> & H). eauto.
Qed.

Lemma lift2_Ok op (a b : num) : lift2 op (Ok a) (Ok b) = op a b.
Proof. reflexivity. Qed.

(** ** The number model on examples *)

Example int_truediv_examples :
  int_truediv 1 3 = Ok (Flt 0.33333333333333331)
  ∧ int_truediv 134 473 = Ok (Flt 0.28329809725158561)
  ∧ int_truediv 0 (-5) = Ok (Flt (-0))
  ∧ int_truediv 7 0 = Raise ZeroDivisionError
  ∧ int_truediv (10 ^ 400) 1 = Raise OverflowError
  ∧ int_truediv (10 ^ 400) (10 ^ 399 + 1) = Ok (Flt 10).
Proof. repeat split; vm_compute; reflexivity. Qed.

Example float_of_int_examples :
  float_of_int (2 ^ 53 + 1) = Ok 9007199254740992%float
  ∧ float_of_int (2 ^ 1024 - 2 ^ 970 - 1) = Ok 1.7976931348623157e+308%float
  ∧ float_of_int (2 ^ 1024 - 2 ^ 970) = Raise OverflowError.
Proof. repeat split; vm_compute; reflexivity. Qed.

Example mixed_arithmetic_examples :
  py_mul (Flt 0.690) (Int 71) = Ok (Flt 48.989999999999995)
  ∧ py_truediv (Int 65) (Flt 222.2) = Ok (Flt 0.29252925292529253)
  ∧ py_truediv (Flt 1) (Flt (-0)) = Raise ZeroDivisionError
  ∧ py_gt (Flt 0.5) (Int 0) = true
  ∧ py_gt (Int (2 ^ 53 + 1)) (Flt 9007199254740992) = true
  ∧ py_eq (Flt 0) (Flt (-0)) = true
  ∧ py_max0 (Flt (-3.5)) = Int 0.
Proof. repeat split; vm_compute; reflexivity. Qed.

(** ** Comparisons *)


Lemma py_gt_int x y : py_gt (Int x) (Int y) = (y <? x).
Proof.
  unfold py_gt, py_cmp, Z.ltb. rewrite (Z.compare_antisym x y).
  by destruct (x ?= y).
Qed.


Lemma py_eq_floats a b : py_eq (Flt a) (Flt b) = (a =? b)%float.
Proof. unfold py_eq, py_cmp. by rewrite FloatAxioms.eqb_spec. Qed.

(** ** Zero tests on floats *)

Lemma Prim2SF_zero : Prim2SF 0 = S754_zero false.
Proof. reflexivity. Qed.

Lemma is_zero_float_spec f :
  is_zero_float f = SFeqb (Prim2SF f) (S754_zero false).
Proof.
  unfold is_zero_float. by rewrite FloatAxioms.eqb_spec, Prim2SF_zero.
Qed.

Lemma SFcompare_refl x : x ≠ S754_nan → SFcompare x x = Some Eq.
Proof.
  destruct x as [s|s| |s m e]; cbn; try done.
  - by destruct s.
  - intros _.
    destruct s; rewrite Z.compare_refl, Pos.compare_cont_refl; reflexivity.
Qed.

Lemma is_nan_Prim2SF f : is_nan f = true → Prim2SF f = S754_nan.
Proof.
  unfold is_nan. rewrite FloatAxioms.eqb_spec. unfold SFeqb.
  destruct (Prim2SF f) as [s|s| |s m e] eqn:E; try reflexivity;
    rewrite SFcompare_refl; done.
Qed.



Lemma cmp_Z_SF_zero_Lt F :
  cmp_Z_SF 0 F = Some Lt → SFeqb F (S754_zero false) = false.
Proof.
  destruct F as [s|s| |s m e]; intros H; try done.
  - by destruct s.
  - by destruct s.
Qed.


Lemma is_zero_float_py_le f :
  is_zero_float f = true → py_le (Flt f) (Int 0) = true.
Proof.
  rewrite is_zero_float_spec. unfold py_le, py_cmp.
  destruct (Prim2SF f) as [s|s| |s m e]; try done; by destruct s.
Qed.


Lemma positive_float_nonzero f :
  py_gt (Flt f) (Int 0) = true → is_zero_float f = false.
Proof.
  unfold py_gt, py_cmp.
  destruct (cmp_Z_SF 0 (Prim2SF f)) as [[]|] eqn:E; try done.
  intros _. rewrite is_zero_float_spec. by apply cmp_Z_SF_zero_Lt.
Qed.

(** ** True division *)

Lemma float_of_int_0 : float_of_int 0 = Ok 0%float.
Proof. reflexivity. Qed.


(** A quotient is a float. *)
Lemma py_truediv_float a b v : py_truediv a b = Ok v → ∃ f, v = Flt f.
Proof.
  unfold py_truediv. intros H. destruct a as [x|f], b as [y|g].
  1: { unfold int_truediv in H. repeat case_match; simplify_eq; eauto. }
  all: apply bind_Ok_inv in H as (fa & _ & H);
       apply bind_Ok_inv in H as (fb & _ & H);
       destruct (is_zero_float fb); simplify_eq; eauto.
Qed.




(** [q / d if d > 0 else 0] yields a ratio value. *)
Lemma guarded_ratio_value (c : bool) (x y : result num) v :
  (if c then lift2 py_truediv x y else Ok (Int 0)) = Ok v → ratio_value v.
Proof.
  destruct c.
  - intros H. apply lift2_Ok_inv in H as (a & b & _ & _ & H).
    right. eapply py_truediv_float, H.
  - intros [= <-]. left. reflexivity.
Qed.

(** The difference of two ratio values never raises. *)
Lemma py_sub_ratio_values a b :
  ratio_value a → ratio_value b → ∃ d, py_sub a b = Ok d ∧ ratio_value d.
Proof.
  intros [-> | [f ->]] [-> | [g ->]]; cbn.
  - exists (Int 0). split; [reflexivity | by left].
  - eexists. split; [vm_compute; reflexivity | right; eauto].
  - eexists. split; [vm_compute; reflexivity | right; eauto].
  - eexists. split; [reflexivity | right; eauto].
Qed.

(** ** Subtraction of floats is antisymmetric *)

Section FloatSub.

Local Abbreviation binary_round_aux := (SpecFloat.binary_round_aux prec emax).
Local Abbreviation binary_round := (SpecFloat.binary_round prec emax).
Local Abbreviation binary_normalize := (SpecFloat.binary_normalize prec emax).

Lemma SFopp_involutive x : SFopp (SFopp x) = x.
Proof. destruct x as [s|s| |s m e]; cbn; by rewrite ?negb_involutive. Qed.

(** Rounding to nearest even does not look at the sign. *)
Lemma binary_round_aux_negative m e l :
  binary_round_aux true m e l = SFopp (binary_round_aux false m e l).
Proof.
  unfold SpecFloat.binary_round_aux.
  destruct (shr_fexp prec emax m e l) as [mrs' e'].
  destruct (shr_fexp prec emax _ e' loc_Exact) as [mrs'' e''].
  destruct (shr_m mrs''); [reflexivity | | reflexivity].
  by destruct (e'' <=? emax - prec).
Qed.

Lemma binary_round_negative m e :
  binary_round true m e = SFopp (binary_round false m e).
Proof.
  unfold SpecFloat.binary_round.
  destruct (shl_align m e _) as [mz ez]. apply binary_round_aux_negative.
Qed.

Lemma binary_normalize_opp m e :
  binary_normalize (- m) e false = SFopp (binary_normalize m e false)
  ∨ m = 0.
Proof.
  destruct m as [|p|p]; cbn.
  - by right.
  - left. apply binary_round_negative.
  - left. by rewrite binary_round_negative, SFopp_involutive.
Qed.

(** [x - y] is the opposite of [y - x], or both are a zero. *)
Lemma SFsub_antisym x y :
  SF64sub x y = SFopp (SF64sub y x)
  ∨ ∃ s s', SF64sub x y = S754_zero s ∧ SF64sub y x = S754_zero s'.
Proof.
  unfold SF64sub.
  destruct x as [sx|sx| |sx mx ex], y as [sy|sy| |sy my ey];
    try (left; reflexivity);
    try (left; cbn; by rewrite ?negb_involutive).
  - right. destruct sx, sy; cbn; eauto.
  - left. destruct sx, sy; reflexivity.
  - unfold SFsub. rewrite (Z.min_comm ey ex).
    set (ez := Z.min ex ey).
    set (X := cond_Zopp sx (Z.pos (shl_align mx ex ez).1)).
    set (Y := cond_Zopp sy (Z.pos (shl_align my ey ez).1)).
    replace (Y - X) with (- (X - Y)) by lia.
    destruct (binary_normalize_opp (X - Y) ez) as [E | E].
    + left. by rewrite E, SFopp_involutive.
    + right. rewrite E. cbn. eauto.
Qed.

End FloatSub.

(** A number that is not a NaN equals itself. *)
Lemma py_eq_refl a : is_nan_num a = false → py_eq a a = true.
Proof.
  destruct a as [x|f]; cbn [is_nan_num].
  - intros _. unfold py_eq, py_cmp. by rewrite Z.compare_refl.
  - rewrite py_eq_floats. unfold is_nan. by destruct (f =? f)%float.
Qed.

(** [is_nan] reads the class of the float. *)
Lemma is_nan_spec f :
  is_nan f = match Prim2SF f with S754_nan => true | _ => false end.
Proof.
  unfold is_nan. rewrite FloatAxioms.eqb_spec. unfold SFeqb.
  destruct (Prim2SF f) as [s|s| |s m e] eqn:E; try reflexivity;
    by rewrite SFcompare_refl.
Qed.

(** A NaN equals nothing. *)
Lemma py_eq_nan a b : is_nan_num a = true → py_eq a b = false.
Proof.
  destruct a as [x|f]; [done|]. cbn [is_nan_num]. rewrite is_nan_spec.
  unfold py_eq, py_cmp. destruct (Prim2SF f); try done.
  by destruct b.
Qed.

(** [v1 - v2] against [v2 - v1]: a NaN together or not at all; exact
    negatives when they are numbers. *)
Lemma py_sub_antisym v1 v2 d1 d2 :
  py_sub v1 v2 = Ok d1 → py_sub v2 v1 = Ok d2 →
  is_nan_num d1 = is_nan_num d2
  ∧ (is_nan_num d1 = false → exact_negatives d1 d2)
  ∧ (is_nan_num d1 = true → py_eq d1 (py_neg d2) = false).
Proof.
  intros H1 H2.
  assert (F : ∀ a b : float,
            is_nan_num (Flt (a - b)) = is_nan_num (Flt (b - a))
            ∧ (is_nan_num (Flt (a - b)) = false →
               exact_negatives (Flt (a - b)) (Flt (b - a)))).
  { intros a b. cbn [is_nan_num]. rewrite !is_nan_spec.
    unfold exact_negatives, py_neg.
    destruct (SFsub_antisym (Prim2SF a) (Prim2SF b))
      as [E | (s & s' & E & E')].
    - rewrite <- !sub_spec in E.
      assert (E' : (a - b)%float = (- (b - a))%float)
        by (apply Prim2SF_inj; by rewrite opp_spec).
      split; [rewrite E; by destruct (Prim2SF (b - a))|].
      intros N. split; [|by left; rewrite E'].
      rewrite <- E'. apply py_eq_refl. cbn [is_nan_num].
      by rewrite is_nan_spec.
    - rewrite <- !sub_spec in E, E'. rewrite E, E'. split; [done|].
      intros _. split; [|right].
      + rewrite py_eq_floats, FloatAxioms.eqb_spec, opp_spec, E, E'.
        by destruct s, s'.
      + unfold py_eq, py_cmp. by rewrite E, E'. }
  unfold py_sub in H1, H2.
  destruct v1 as [x|f], v2 as [y|g].
  1: { injection H1 as <-. injection H2 as <-. split; [done|].
       split; [|done]. intros _.
       assert (E : Int (x - y) = py_neg (Int (y - x)))
         by (cbn; f_equal; lia).
       split; [|by left]. rewrite <- E. by apply py_eq_refl. }
  all: apply bind_Ok_inv in H1 as (a & A1 & H1);
       apply bind_Ok_inv in H1 as (b & B1 & H1);
       apply bind_Ok_inv in H2 as (b' & B2 & H2);
       apply bind_Ok_inv in H2 as (a' & A2 & H2);
       rewrite A1 in A2; rewrite B1 in B2;
       injection A2 as <-; injection B2 as <-;
       injection H1 as <-; injection H2 as <-;
       destruct (F a b) as [N X]; split; [exact N|];
       split; [exact X | apply py_eq_nan].
Qed.

(** ** Records *)

Lemma all_zero_get stats k : all_zero stats → get stats k (Int 0) = Int 0.
Proof.
  intros Z. unfold get. destruct (stats !! k) as [v|] eqn:E; [|reflexivity].
  exact (Z k v E).
Qed.

Lemma all_zero_zero_stats : all_zero zero_stats.
Proof.
  intros k v. unfold zero_stats, dict. intros H.
  apply elem_of_list_to_map_2 in H.
  repeat (apply elem_of_cons in H as [[= _ ->] | H]; [reflexivity|]).
  by apply elem_of_nil in H.
Qed.

Lemma get_int_record stats k d :
  int_record stats → get stats k (Int d) = Int (zget stats k d).
Proof.
  intros I. unfold get, zget.
  destruct (stats !! k) as [v|] eqn:E; [|reflexivity].
  destruct (I k v E) as [z ->]. reflexivity.
Qed.

(** A dictionary literal of integers is a record of integer counts. *)
Lemma int_record_dict_ints (l : list (string * Z)) :
  int_record (dict (prod_map id Int <$> l)).
Proof.
  intros k v H. apply elem_of_list_to_map_2 in H.
  apply list_elem_of_fmap in H as ([k' z] & [= _ ->] & _). eauto.
Qed.

(** ** What the batting formulas return *)

Lemma calculate_basic_stats_inv stats basic :
  calculate_basic_stats stats = Ok basic →
  ∃ avg obp slg ops,
    basic = <["OPS" := ops]> (<["SLG" := slg]> (<["OBP" := obp]>
              (<["AVG" := avg]> ∅)))
    ∧ ratio_value avg ∧ ratio_value obp ∧ ratio_value slg
    ∧ py_add obp slg = Ok ops.
Proof.
  unfold calculate_basic_stats. intros H.
  apply bind_Ok_inv in H as (pa & _ & H).
  apply bind_Ok_inv in H as (avg & Havg & H).
  apply bind_Ok_inv in H as (obp & Hobp & H).
  apply bind_Ok_inv in H as (dflt & _ & H).
  apply bind_Ok_inv in H as (tb & _ & H).
  apply bind_Ok_inv in H as (slg & Hslg & H).
  apply bind_Ok_inv in H as (ops & Hops & H).
  injection H as <-.
  exists avg, obp, slg, ops. split; [reflexivity|].
  apply guarded_ratio_value in Havg, Hobp, Hslg.
  repeat split; assumption.
Qed.

(** [calculate_basic_stats] on a record of integer counts: every sum is an
    integer sum, every ratio an integer division. *)
Lemma calculate_basic_stats_int stats :
  int_record stats →
  let ab := zget stats "AB" 0 in
  let h := zget stats "H" 0 in
  let bb := zget stats "BB" 0 in
  let sf := zget stats "SF" 0 in
  let hbp := zget stats "HBP" 0 in
  let doubles := zget stats "2B" 0 in
  let triples := zget stats "3B" 0 in
  let hr := zget stats "HR" 0 in
  let singles := zget stats "1B" (h - doubles - triples - hr) in
  calculate_basic_stats stats =
  let* avg := if 0 <? ab then int_truediv h ab else Ok (Int 0) in
  let* obp := if 0 <? ab + bb + sf + hbp
              then int_truediv (h + bb + hbp) (ab + bb + sf + hbp)
              else Ok (Int 0) in
  let* slg := if 0 <? ab
              then int_truediv
                     (singles + 2 * doubles + 3 * triples + 4 * hr) ab
              else Ok (Int 0) in
  let* ops := py_add obp slg in
  Ok (<["OPS" := ops]> (<["SLG" := slg]> (<["OBP" := obp]>
        (<["AVG" := avg]> ∅)))).
Proof.
  intros I. cbv zeta. unfold calculate_basic_stats.
  rewrite !(get_int_record stats _ 0 I).
  cbn [lift2 bind ret_num py_add py_sub py_mul py_truediv].
  rewrite (get_int_record stats "1B" _ I).
  cbn [lift2 bind ret_num py_add py_sub py_mul py_truediv].
  rewrite !py_gt_int.
  reflexivity.
Qed.

(** What [calculate_woba] returns is a ratio value. *)
Lemma calculate_woba_value self stats w :
  calculate_woba self stats = Ok w → ratio_value w.
Proof.
  unfold calculate_woba. intros H.
  apply bind_Ok_inv in H as (bb & _ & H).
  apply bind_Ok_inv in H as (n & _ & H).
  apply bind_Ok_inv in H as (d & _ & H).
  by apply guarded_ratio_value in H.
Qed.

(** ** The all-zero record (C1) *)

Lemma all_zero_basic_stats stats :
  all_zero stats →
  calculate_basic_stats stats
  = Ok (dict [("AVG", Int 0); ("OBP", Int 0); ("SLG", Int 0);
              ("OPS", Int 0)]%string).
Proof.
  intros Z. unfold calculate_basic_stats.
  rewrite !(all_zero_get stats _ Z).
  cbn [lift2 bind ret_num py_add py_sub].
  rewrite !(all_zero_get stats _ Z).
  vm_compute. reflexivity.
Qed.

Lemma all_zero_woba stats :
  all_zero stats → calculate_woba __init__ stats = Ok (Int 0).
Proof.
  intros Z. unfold calculate_woba.
  rewrite !(all_zero_get stats _ Z). vm_compute. reflexivity.
Qed.

Lemma all_zero_babip stats :
  all_zero stats → calculate_babip stats = Ok (Int 0).
Proof.
  intros Z. unfold calculate_babip.
  rewrite !(all_zero_get stats _ Z). vm_compute. reflexivity.
Qed.

(** C1 (as the code has it). For an all-zero batting record the call raises
    nothing; AVG, OBP, SLG, OPS, wOBA, BABIP, ISO, BB_Rate and K_Rate are 0,
    while wRC+ is [((0 - 0.320) / 1.255 + 4.65) * 100 / 1.0] and OPS+ is
    [100 * (0 / 0.320 + 0 / 0.425 - 1) / 1.0 = -100]. *)
Theorem all_zero_record_metrics (stats : record) :
  all_zero stats →
  calculate_comprehensive_player_metrics __init__ stats default_park_factor
  = Ok all_zero_metrics.
Proof.
  intros Z.
  unfold calculate_comprehensive_player_metrics, calculate_wrc_plus,
    calculate_iso, calculate_ops_plus.
  rewrite (all_zero_basic_stats stats Z), (all_zero_woba stats Z),
    (all_zero_babip stats Z), !(all_zero_get stats _ Z).
  vm_compute. reflexivity.
Qed.

Lemma all_zero_record_metrics_witness :
  calculate_comprehensive_player_metrics __init__ zero_stats default_park_factor
  = Ok all_zero_metrics.
Proof.
  apply (all_zero_record_metrics zero_stats), all_zero_zero_stats.
Defined.

(** C1 as the specification states it fails: at the all-zero record, two of
    the eleven metrics are not 0. *)
Lemma all_zero_record_not_all_zero :
  ∃ metrics wrc opsp,
    calculate_comprehensive_player_metrics __init__ zero_stats
      default_park_factor = Ok metrics
    ∧ metrics !! "wRC+" = Some wrc ∧ py_eq wrc (Int 0) = false
    ∧ metrics !! "OPS+" = Some opsp ∧ py_eq opsp (Int 0) = false.
Proof.
  exists all_zero_metrics, (Flt 439.50199203187259), (Flt (-100)).
  repeat split; vm_compute; reflexivity.
Qed.

(** ** The park factor (C2) *)


Lemma league_ratio v (league : float) :
  ratio_value v →
  ∃ r, (if py_gt (Flt league) (Int 0)
        then (Ok v / Flt league)%py else Ok (Int 1)) = Ok r
    ∧ league_ratio_value r.
Proof.
  intros R. destruct (py_gt (Flt league) (Int 0)) eqn:G.
  - apply positive_float_nonzero in G.
    destruct R as [-> | [f ->]]; rewrite lift2_Ok; unfold py_truediv;
      cbn [to_float]; rewrite ?float_of_int_0; cbn [bind]; rewrite G;
      eexists; (split; [reflexivity | right; eauto]).
  - exists (Int 1). split; [reflexivity | by left].
Qed.

(** The dividend of OPS+ is the integer [100] (both ratios substituted) or a
    float. *)
Lemma ops_plus_dividend a b :
  league_ratio_value a → league_ratio_value b →
  ∃ d, (Int 100 * (Ok a + Ok b - Int 1))%py = Ok d
    ∧ (d = Int 100 ∨ ∃ f, d = Flt f).
Proof.
  intros [-> | [f ->]] [-> | [g ->]];
    eexists; (split; [reflexivity | (by left) || (right; eauto)]).
Qed.

Lemma calculate_ops_plus_unfold stats pf (league_obp league_slg : float) basic :
  calculate_basic_stats stats = Ok basic →
  ∃ d, (d = Int 100 ∨ ∃ f, d = Flt f)
    ∧ calculate_ops_plus stats pf (Flt league_obp) (Flt league_slg)
      = py_truediv d pf.
Proof.
  intros H. unfold calculate_ops_plus. rewrite H. cbn [bind].
  apply calculate_basic_stats_inv in H
    as (avg & obp & slg & ops & -> & _ & Robp & Rslg & _).
  destruct (league_ratio obp league_obp Robp) as (a & Ha & Ra).
  destruct (league_ratio slg league_slg Rslg) as (b & Hb & Rb).
  destruct (ops_plus_dividend a b Ra Rb) as (d & Hd & Rd).
  exists d. split; [exact Rd|].
  change (getitem _ "OBP") with (Ok obp).
  change (getitem _ "SLG") with (Ok slg).
  rewrite Ha. cbn [bind]. rewrite Hb. cbn [bind].
  unfold ret_num in *.
  unfold lift2 at 1. rewrite Hd. reflexivity.
Qed.




(** ** wOBA (C3) *)

(** C3 as the specification states it fails: the code divides by
    [AB + (BB - IBB) + SF + HBP]; an intentional walk is not in the
    denominator. *)
Lemma calculate_woba_not_total_walks :
  calculate_woba __init__ intentional_walk_stats = Ok (Flt 0.888)
  ∧ woba_total_walks intentional_walk_stats = Ok (Flt 0.444)
  ∧ calculate_woba __init__ intentional_walk_stats
    ≠ woba_total_walks intentional_walk_stats.
Proof.
  assert (C : calculate_woba __init__ intentional_walk_stats = Ok (Flt 0.888))
    by (vm_compute; reflexivity).
  assert (S : woba_total_walks intentional_walk_stats = Ok (Flt 0.444))
    by (vm_compute; reflexivity).
  split; [exact C | split; [exact S |]].
  rewrite C, S. intros [=].
Qed.

(** C3 (as the code has it). For every record, with [uBB = BB - IBB] the
    unintentional walks, [calculate_woba] is the linear-weighted sum of uBB,
    HBP, 1B, 2B, 3B, HR divided by [AB + uBB + SF + HBP] (the unintentional
    walks again, not the record's total walks) when that denominator is
    positive, and 0 otherwise. *)
Theorem calculate_woba_unintentional_walks
    (stats : record) (ubb numerator denominator : num) :
  py_sub (get stats "BB" (Int 0)) (get stats "IBB" (Int 0)) = Ok ubb →
  linear_weighted_sum ubb (get stats "HBP" (Int 0)) (get stats "1B" (Int 0))
    (get stats "2B" (Int 0)) (get stats "3B" (Int 0)) (get stats "HR" (Int 0))
  = Ok numerator →
  (get stats "AB" (Int 0) + ubb + get stats "SF" (Int 0)
   + get stats "HBP" (Int 0))%py = Ok denominator →
  calculate_woba __init__ stats =
  if py_gt denominator (Int 0) then py_truediv numerator denominator
  else Ok (Int 0).
Proof.
  intros U N D. unfold calculate_woba.
  change (lift2 py_sub _ _) with
    (py_sub (get stats "BB" (Int 0)) (get stats "IBB" (Int 0))).
  rewrite U. cbn [bind].
  change (lift2 py_add _ (lift2 py_mul (getitem _ "HR") _)) with
    (linear_weighted_sum ubb (get stats "HBP" (Int 0))
       (get stats "1B" (Int 0)) (get stats "2B" (Int 0))
       (get stats "3B" (Int 0)) (get stats "HR" (Int 0))).
  rewrite N. cbn [bind]. rewrite D. reflexivity.
Qed.

Lemma calculate_woba_unintentional_walks_witness :
  calculate_woba __init__ trout_stats =
  if py_gt (Int 551) (Int 0)
  then py_truediv (Flt 215.309) (Int 551)
  else Ok (Int 0).
Proof.
  apply (calculate_woba_unintentional_walks trout_stats (Int 71));
    vm_compute; reflexivity.
Defined.

(** The same on a record of integer counts: the denominator is an integer
    sum. *)
Lemma calculate_woba_int_record (stats : record) :
  int_record stats →
  let ubb := zget stats "BB" 0 - zget stats "IBB" 0 in
  let denominator :=
    zget stats "AB" 0 + ubb + zget stats "SF" 0 + zget stats "HBP" 0 in
  calculate_woba __init__ stats =
  let* numerator :=
    linear_weighted_sum (Int ubb) (Int (zget stats "HBP" 0))
      (Int (zget stats "1B" 0)) (Int (zget stats "2B" 0))
      (Int (zget stats "3B" 0)) (Int (zget stats "HR" 0)) in
  if 0 <? denominator then py_truediv numerator (Int denominator)
  else Ok (Int 0).
Proof.
  intros I. cbv zeta. unfold calculate_woba, linear_weighted_sum.
  rewrite !(get_int_record stats _ 0 I).
  cbn [lift2 bind ret_num py_sub].
  apply bind_ext. intros numerator.
  cbn [lift2 bind ret_num py_add]. rewrite py_gt_int. reflexivity.
Qed.

Example calculate_woba_trout :
  calculate_woba __init__ trout_stats = Ok (Flt 0.39076043557168783).
Proof. vm_compute. reflexivity. Qed.

(** ** The league baselines of OPS+ (C4) *)

(** C4 (as the code has it). [calculate_ops_plus] guards each league baseline
    with [> 0]: a baseline that is 0 (or anything not greater than 0) raises
    nothing, its ratio is replaced by [1].  With both baselines so, OPS+ is
    [100 / park_factor] for every record whose basic stats are computed. *)
Theorem league_baseline_zero_is_substituted
    (stats : record) (park_factor league_obp league_slg : num) :
  (py_gt league_obp (Int 0) = false →
     calculate_ops_plus stats park_factor league_obp league_slg =
     let* basic := calculate_basic_stats stats in
     let* slg_ratio := (if py_gt league_slg (Int 0)
                        then getitem basic "SLG" / league_slg
                        else Ok (Int 1))%py in
     (Int 100 * (Int 1 + slg_ratio - Int 1) / park_factor)%py)
  ∧ (py_gt league_slg (Int 0) = false →
     calculate_ops_plus stats park_factor league_obp league_slg =
     let* basic := calculate_basic_stats stats in
     let* obp_ratio := (if py_gt league_obp (Int 0)
                        then getitem basic "OBP" / league_obp
                        else Ok (Int 1))%py in
     (Int 100 * (obp_ratio + Int 1 - Int 1) / park_factor)%py)
  ∧ (py_gt league_obp (Int 0) = false → py_gt league_slg (Int 0) = false →
     calculate_ops_plus stats park_factor league_obp league_slg =
     let* basic := calculate_basic_stats stats in
     py_truediv (Int 100) park_factor).
Proof.
  unfold calculate_ops_plus. repeat split.
  - intros ->. reflexivity.
  - intros ->. reflexivity.
  - intros -> ->. reflexivity.
Qed.

Lemma league_baseline_zero_is_substituted_witness :
  calculate_ops_plus trout_stats default_park_factor (Int 0) (Int 0)
  = let* basic := calculate_basic_stats trout_stats in
    py_truediv (Int 100) default_park_factor.
Proof.
  apply (league_baseline_zero_is_substituted trout_stats
           default_park_factor (Int 0) (Int 0)); reflexivity.
Defined.

(** C4 as the specification states it fails: a league baseline of 0 raises
    nothing. *)
Lemma league_baseline_zero_returns :
  calculate_ops_plus trout_stats default_park_factor
    (Flt 0) default_league_slg = Ok (Flt 122.87028976495461)
  ∧ raises (calculate_ops_plus trout_stats default_park_factor
              (Flt 0) default_league_slg) = false
  ∧ calculate_ops_plus trout_stats default_park_factor
      default_league_obp (Flt 0) = Ok (Flt 124.12126537785588)
  ∧ raises (calculate_ops_plus trout_stats default_park_factor
              default_league_obp (Flt 0)) = false
  ∧ calculate_ops_plus trout_stats default_park_factor (Int 0) (Int 0)
    = Ok (Flt 100).
Proof. repeat split; vm_compute; reflexivity. Qed.

(** ** Records without at-bats (C5) *)

(** C5 as the specification states it fails: without at-bats OBP and OPS are
    not the sentinel when the batter reached base; their guard is the plate
    appearances, not the at-bats. *)
Lemma walk_only_basic_stats :
  get walk_only_stats "AB" (Int 0) = Int 0
  ∧ calculate_basic_stats walk_only_stats
    = Ok (dict [("AVG", Int 0); ("OBP", Flt 1); ("SLG", Int 0);
                ("OPS", Flt 1)]%string)
  ∧ py_eq (Flt 1) (Int 0) = false.
Proof. repeat split; vm_compute; reflexivity. Qed.

(** C5 (as the code has it). On a valid record (integer counts) with
    [AB = 0], AVG, SLG and ISO are 0; OBP is
    [(H + BB + HBP) / (BB + SF + HBP)] when these plate appearances are
    positive and 0 otherwise, and OPS is [OBP + 0]. *)
Theorem basic_stats_without_at_bats (stats : record) :
  int_record stats →
  zget stats "AB" 0 = 0 →
  let h := zget stats "H" 0 in
  let bb := zget stats "BB" 0 in
  let sf := zget stats "SF" 0 in
  let hbp := zget stats "HBP" 0 in
  let obp := if 0 <? bb + sf + hbp
             then int_truediv (h + bb + hbp) (bb + sf + hbp)
             else Ok (Int 0) in
  calculate_basic_stats stats =
    (let* obp := obp in
     let* ops := py_add obp (Int 0) in
     Ok (dict [("AVG", Int 0); ("OBP", obp); ("SLG", Int 0);
               ("OPS", ops)]%string))
  ∧ calculate_iso stats =
    (let* obp := obp in let* ops := py_add obp (Int 0) in Ok (Int 0)).
Proof.
  intros I AB. cbv zeta.
  pose proof (calculate_basic_stats_int stats I) as E. cbv zeta in E.
  rewrite AB in E. change (0 <? 0) with false in E. cbn [bind] in E.
  rewrite Z.add_0_l in E.
  unfold calculate_iso. rewrite E.
  split.
  - reflexivity.
  - destruct (if 0 <? _ then _ else _) as [obp|e]; [|reflexivity].
    cbn [bind]. destruct (py_add obp (Int 0)); reflexivity.
Qed.

Lemma walk_only_stats_int_record : int_record walk_only_stats.
Proof.
  apply (int_record_dict_ints [("AB", 0); ("H", 0); ("BB", 1)]%string).
Qed.

Lemma basic_stats_without_at_bats_witness :
  calculate_basic_stats walk_only_stats =
    (let* obp := int_truediv (0 + 1 + 0) (1 + 0 + 0) in
     let* ops := py_add obp (Int 0) in
     Ok (dict [("AVG", Int 0); ("OBP", obp); ("SLG", Int 0);
               ("OPS", ops)]%string))
  ∧ calculate_iso walk_only_stats =
    (let* obp := int_truediv (0 + 1 + 0) (1 + 0 + 0) in
     let* ops := py_add obp (Int 0) in Ok (Int 0)).
Proof.
  apply (basic_stats_without_at_bats walk_only_stats).
  - exact walk_only_stats_int_record.
  - reflexivity.
Defined.

(** ** Singles (C6) *)

(** C6 as the specification states it fails: the derived singles are
    [1 - 2 = -1] and enter the total bases as such; SLG is
    [(-1 + 2 * 2) / 4], not [(0 + 2 * 2) / 4]. *)
Lemma negative_singles_not_clamped :
  inconsistent_stats !! "1B" = None
  ∧ ∃ basic, calculate_basic_stats inconsistent_stats = Ok basic
      ∧ basic !! "SLG" = Some (Flt 0.75)
      ∧ int_truediv (0 + 2 * 2) 4 = Ok (Flt 1).
Proof.
  split; [reflexivity|].
  exists (dict [("AVG", Flt 0.25); ("OBP", Flt 0.25); ("SLG", Flt 0.75);
                ("OPS", Flt 1)]%string).
  repeat split; vm_compute; reflexivity.
Qed.

(** C6 (as the code has it). In [calculate_basic_stats], a record lacking the
    ["1B"] key has its singles computed as [H - 2B - 3B - HR], and that
    number enters the total bases as it is: on integer counts it is the
    integer difference, negative or not. *)
Theorem singles_derived_from_hits (stats basic : record) :
  stats !! "1B" = None →
  calculate_basic_stats stats = Ok basic →
  ∃ singles total_bases slg,
    (get stats "H" (Int 0) - get stats "2B" (Int 0) - get stats "3B" (Int 0)
     - get stats "HR" (Int 0))%py = Ok singles
    ∧ (singles + Int 2 * get stats "2B" (Int 0)
       + Int 3 * get stats "3B" (Int 0)
       + Int 4 * get stats "HR" (Int 0))%py = Ok total_bases
    ∧ basic !! "SLG" = Some slg
    ∧ (if py_gt (get stats "AB" (Int 0)) (Int 0)
       then py_truediv total_bases (get stats "AB" (Int 0))
       else Ok (Int 0)) = Ok slg
    ∧ (int_record stats →
       singles = Int (zget stats "H" 0 - zget stats "2B" 0
                      - zget stats "3B" 0 - zget stats "HR" 0)).
Proof.
  intros N H. unfold calculate_basic_stats in H.
  apply bind_Ok_inv in H as (pa & _ & H).
  apply bind_Ok_inv in H as (avg & _ & H).
  apply bind_Ok_inv in H as (obp & _ & H).
  apply bind_Ok_inv in H as (singles & Hs & H).
  unfold get at 1 in H. rewrite N in H. cbn [default] in H.
  apply bind_Ok_inv in H as (tb & Htb & H).
  apply bind_Ok_inv in H as (slg & Hslg & H).
  apply bind_Ok_inv in H as (ops & _ & H).
  injection H as <-.
  exists singles, tb, slg. repeat split; try assumption.
  intros I. rewrite !(get_int_record stats _ 0 I) in Hs.
  by injection Hs as <-.
Qed.

Lemma singles_derived_from_hits_witness :
  ∃ singles total_bases slg,
    (Int 1 - Int 2 - Int 0 - Int 0)%py = Ok singles
    ∧ (singles + Int 2 * Int 2 + Int 3 * Int 0 + Int 4 * Int 0)%py
      = Ok total_bases
    ∧ dict [("AVG", Flt 0.25); ("OBP", Flt 0.25); ("SLG", Flt 0.75);
            ("OPS", Flt 1)]%string !! "SLG" = Some slg
    ∧ (if py_gt (Int 4) (Int 0) then py_truediv total_bases (Int 4)
       else Ok (Int 0)) = Ok slg
    ∧ (int_record inconsistent_stats → singles = Int (1 - 2 - 0 - 0)).
Proof.
  apply (singles_derived_from_hits inconsistent_stats).
  - reflexivity.
  - vm_compute. reflexivity.
Defined.

(** [calculate_woba] does not derive the singles: without the key they count
    as 0. *)
Example calculate_woba_missing_singles :
  calculate_woba __init__ (dict [("AB", Int 4); ("H", Int 1)]%string)
  = Ok (Flt 0)
  ∧ calculate_woba __init__
      (dict [("AB", Int 4); ("H", Int 1); ("1B", Int 1)]%string)
    = Ok (Flt 0.222).
Proof. split; vm_compute; reflexivity. Qed.

(** ** Isolated power (C7) *)

(** C7. For every record, [calculate_iso] is the Python difference
    [basic['SLG'] - basic['AVG']] of the mapping [calculate_basic_stats]
    returns for that record: the very value of that subtraction (the same
    float, bit for bit), not clamped when it is negative.  The subtraction
    itself never raises; when [calculate_basic_stats] raises, so does
    [calculate_iso]. *)
Theorem calculate_iso_is_slg_minus_avg (stats : record) :
  match calculate_basic_stats stats with
  | Ok basic =>
      ∃ slg avg iso,
        basic !! "SLG" = Some slg ∧ basic !! "AVG" = Some avg
        ∧ py_sub slg avg = Ok iso
        ∧ calculate_iso stats = Ok iso
  | Raise e => calculate_iso stats = Raise e
  end.
Proof.
  unfold calculate_iso.
  destruct (calculate_basic_stats stats) as [basic|e] eqn:H; [|reflexivity].
  cbn [bind].
  apply calculate_basic_stats_inv in H
    as (avg & obp & slg & ops & -> & Ravg & _ & Rslg & _).
  destruct (py_sub_ratio_values slg avg Rslg Ravg) as (iso & Hiso & _).
  exists slg, avg, iso. by repeat split.
Qed.

Example calculate_iso_trout :
  calculate_basic_stats trout_stats
  = Ok (dict [("AVG", Flt 0.28329809725158561);
              ("OBP", Flt 0.39718804920913886);
              ("SLG", Flt 0.52219873150105711);
              ("OPS", Flt 0.91938678071019597)]%string)
  ∧ py_sub (Flt 0.52219873150105711) (Flt 0.28329809725158561)
    = Ok (Flt 0.2389006342494715)
  ∧ calculate_iso trout_stats = Ok (Flt 0.2389006342494715).
Proof. repeat split; vm_compute; reflexivity. Qed.

(** With explicit singles below the hits, SLG is below AVG and ISO is
    negative. *)
Example calculate_iso_negative :
  calculate_basic_stats no_singles_stats
  = Ok (dict [("AVG", Flt 0.5); ("OBP", Flt 0.5); ("SLG", Flt 0);
              ("OPS", Flt 0.5)]%string)
  ∧ calculate_iso no_singles_stats = Ok (Flt (-0.5)).
Proof. split; vm_compute; reflexivity. Qed.

(** ** Integers that fit a float *)

Section SmallIntegers.

Local Abbreviation fexp := (SpecFloat.fexp prec emax).
Local Abbreviation binary_round_aux := (SpecFloat.binary_round_aux prec emax).
Local Abbreviation binary_round := (SpecFloat.binary_round prec emax).
Local Abbreviation binary_normalize := (SpecFloat.binary_normalize prec emax).
Local Abbreviation shr_fexp := (SpecFloat.shr_fexp prec emax).














(** *** Rounding never overflows on a small mantissa *)







(** *** The quotient of two small integers *)







End SmallIntegers.

(** ** Strikeout-to-walk ratio (C8) *)








(** The three cases on pitching lines: the first is of the sample data. *)
Example k_bb_ratio_examples :
  (let* m := calculate_pitcher_metrics __init__
               (dict [("IP", Flt 222.2); ("H", Int 180); ("ER", Int 65);
                      ("HR", Int 28); ("BB", Int 45); ("K", Int 222);
                      ("HBP", Int 7)]%string) in
   getitem m "K_BB_ratio") = Ok (Flt 4.9333333333333336)
  ∧ (let* m := calculate_pitcher_metrics __init__ no_walk_stats in
     getitem m "K_BB_ratio") = Ok (Int 7)
  ∧ (let* m := calculate_pitcher_metrics __init__
                 (dict [("IP", Flt 1.0)]%string) in
     getitem m "K_BB_ratio") = Ok (Int 0).
Proof. repeat split; vm_compute; reflexivity. Qed.

(** ** Player comparison (C9) *)

(** A row of the table is a row the loop started with, or the row the loop
    builds for that metric from the two metric sets. *)
Lemma compare_loop_lookup p1 p2 metrics comparison table metric row :
  compare_loop p1 p2 metrics comparison = Ok table →
  table !! metric = Some row →
  comparison !! metric = Some row
  ∨ ∃ v1 v2 d,
      p1 !! metric = Some v1 ∧ p2 !! metric = Some v2
      ∧ py_sub v1 v2 = Ok d
      ∧ row = {| player1 := v1; player2 := v2; difference := d;
                 player1_better := py_gt v1 v2 |}.
Proof.
  revert comparison.
  induction metrics as [|m rest IH]; intros comparison H L; cbn in H.
  - injection H as <-. by left.
  - destruct (p1 !! m) as [v1|] eqn:E1; [|by apply (IH comparison)].
    destruct (p2 !! m) as [v2|] eqn:E2; [|by apply (IH comparison)].
    apply bind_Ok_inv in H as (d & Hd & H).
    destruct (IH _ H L) as [L' | R]; [|by right].
    destruct (decide (m = metric)) as [-> | Ne].
    + rewrite lookup_insert_eq in L'. injection L' as <-.
      right. by exists v1, v2, d.
    + rewrite lookup_insert_ne in L' by done. by left.
Qed.

(** C9 (as the code has it). For every pair of records and every metric
    with a row in both tables, the [difference] of [compare_players(A, B)] and
    that of [compare_players(B, A)] are a NaN together or not at all.  When
    they are numbers they are exact negatives: [difference_ab ==
    -difference_ba] holds in Python and the first is the very number [-d] for
    the second [d] (two zeros may differ in sign).  When they are a NaN, which
    takes infinite or NaN metrics, the equality fails. *)
Theorem compare_players_difference_antisymmetric
    (self : engine) (stats_a stats_b : record) (metrics : option (list string))
    (table_ab table_ba : gmap string comparison_row)
    (metric : string) (row_ab row_ba : comparison_row) :
  compare_players self stats_a stats_b metrics = Ok table_ab →
  compare_players self stats_b stats_a metrics = Ok table_ba →
  table_ab !! metric = Some row_ab →
  table_ba !! metric = Some row_ba →
  is_nan_num (difference row_ab) = is_nan_num (difference row_ba)
  ∧ (is_nan_num (difference row_ab) = false →
     exact_negatives (difference row_ab) (difference row_ba))
  ∧ (is_nan_num (difference row_ab) = true →
     py_eq (difference row_ab) (py_neg (difference row_ba)) = false).
Proof.
  unfold compare_players. intros Hab Hba Lab Lba.
  apply bind_Ok_inv in Hab as (pa & Ha & Hab).
  apply bind_Ok_inv in Hab as (pb & Hb & Hab).
  rewrite Hb, Ha in Hba. cbn [bind] in Hba.
  destruct (compare_loop_lookup _ _ _ _ _ _ _ Hab Lab)
    as [E | (v1 & v2 & d & E1 & E2 & Hd & ->)];
    [by rewrite lookup_empty in E|].
  destruct (compare_loop_lookup _ _ _ _ _ _ _ Hba Lba)
    as [E | (w1 & w2 & d' & F1 & F2 & Hd' & ->)];
    [by rewrite lookup_empty in E|].
  rewrite E2 in F1. rewrite E1 in F2.
  injection F1 as <-. injection F2 as <-.
  cbn [difference]. by eapply py_sub_antisym.
Qed.

Lemma compare_players_difference_antisymmetric_witness :
  is_nan_num (Flt (-0.010819549807237927))
  = is_nan_num (Flt 0.010819549807237927)
  ∧ (is_nan_num (Flt (-0.010819549807237927)) = false →
     exact_negatives (Flt (-0.010819549807237927))
       (Flt 0.010819549807237927))
  ∧ (is_nan_num (Flt (-0.010819549807237927)) = true →
     py_eq (Flt (-0.010819549807237927))
       (py_neg (Flt 0.010819549807237927)) = false).
Proof.
  apply (compare_players_difference_antisymmetric __init__
           trout_stats betts_stats (Some ["AVG"; "HR"]%string)
           {[ "AVG"%string :=
                {| player1 := Flt 0.28329809725158561;
                   player2 := Flt 0.29411764705882354;
                   difference := Flt (-0.010819549807237927);
                   player1_better := false |} ]}
           {[ "AVG"%string :=
                {| player1 := Flt 0.29411764705882354;
                   player2 := Flt 0.28329809725158561;
                   difference := Flt 0.010819549807237927;
                   player1_better := true |} ]}
           "AVG"
           {| player1 := Flt 0.28329809725158561;
              player2 := Flt 0.29411764705882354;
              difference := Flt (-0.010819549807237927);
              player1_better := false |}
           {| player1 := Flt 0.29411764705882354;
              player2 := Flt 0.28329809725158561;
              difference := Flt 0.010819549807237927;
              player1_better := true |});
    vm_compute; reflexivity.
Defined.

(** The original claim fails on a NaN: with [10 ^ 308] hits OPS is infinite
    for both players, both differences are a NaN, and [nan == -nan] is
    false. *)
Lemma compare_players_nan_difference :
  (let* table := compare_players __init__ overflowing_stats_a
                   overflowing_stats_b None in
   Ok (difference <$> table !! "OPS"))
  = Ok (Some (Flt nan))
  ∧ (let* table := compare_players __init__ overflowing_stats_b
                     overflowing_stats_a None in
     Ok (difference <$> table !! "OPS"))
    = Ok (Some (Flt nan))
  ∧ py_eq (Flt nan) (py_neg (Flt nan)) = false.
Proof. repeat split; vm_compute; reflexivity. Qed.

(** A player compared with himself: every difference is [0.0], which equals
    [-0.0]. *)
Example compare_players_same_player :
  ∃ table row, compare_players __init__ trout_stats trout_stats
                 (Some ["OPS"]%string) = Ok table
    ∧ table !! "OPS" = Some row
    ∧ difference row = Flt 0
    ∧ py_eq (difference row) (py_neg (difference row)) = true.
Proof.
  eexists _, _. repeat split; vm_compute; reflexivity.
Qed.

(** ** Wins above replacement (C10) *)

(** C10. [calculate_war_approximation] does not depend on its
    [fielding_stats] argument: any two values of it, [None] included, give
    the same result for the same batting record and position. *)
Theorem calculate_war_approximation_ignores_fielding
    (self : engine) (batting_stats : record)
    (fielding1 fielding2 : option record) (position : string) :
  calculate_war_approximation self batting_stats fielding1 position
  = calculate_war_approximation self batting_stats fielding2 position.
Proof. reflexivity. Qed.

Example calculate_war_approximation_trout :
  calculate_war_approximation __init__ trout_stats None "CF"
  = Ok (Flt 63.913052085151747)
  ∧ calculate_war_approximation __init__ trout_stats (Some betts_stats) "CF"
    = Ok (Flt 63.913052085151747).
Proof. split; vm_compute; reflexivity. Qed.

(** * Further properties of the engine *)

(** ** Order of Python numbers *)

Lemma SFcompare_antisym x y :
  SFcompare y x = CompOpp <$> SFcompare x y.
Proof.
  destruct x as [sx|sx| |sx mx ex], y as [sy|sy| |sy my ey];
    try reflexivity; try (by destruct sx); try (by destruct sy);
    try (by destruct sx, sy).
  unfold SFcompare. cbn [fmap option_fmap option_map]. f_equal.
  destruct sx, sy; try reflexivity.
  - rewrite (Z.compare_antisym ex ey).
    destruct (ex ?= ey); cbn [CompOpp]; try reflexivity.
    rewrite CompOpp_involutive.
    exact (Pos.compare_cont_antisym my mx Eq).
  - rewrite (Z.compare_antisym ex ey).
    destruct (ex ?= ey); cbn [CompOpp]; try reflexivity.
    symmetry. exact (Pos.compare_cont_antisym mx my Eq).
Qed.

Lemma py_cmp_antisym a b : py_cmp b a = CompOpp <$> py_cmp a b.
Proof.
  destruct a as [x|f], b as [y|g]; cbn.
  - by rewrite (Z.compare_antisym x y).
  - reflexivity.
  - destruct (cmp_Z_SF y (Prim2SF f)) as [c|]; cbn; [|reflexivity].
    by rewrite CompOpp_involutive.
  - apply SFcompare_antisym.
Qed.

(** [a > b] and [b > a] never hold together. *)
Lemma py_gt_asym a b : py_gt a b = true → py_gt b a = false.
Proof.
  unfold py_gt. rewrite (py_cmp_antisym a b).
  by destruct (py_cmp a b) as [[]|].
Qed.

Lemma py_gt_irrefl a : py_gt a a = false.
Proof. destruct (py_gt a a) eqn:E; [|reflexivity]. by rewrite (py_gt_asym a a E) in E. Qed.

(** A number that compares with [0] is not a NaN. *)
Lemma py_cmp_zero_not_nan a c : py_cmp a (Int 0) = Some c → is_nan_num a = false.
Proof.
  destruct a as [x|f]; [reflexivity|]. cbn.
  destruct (is_nan f) eqn:N; [|reflexivity].
  apply is_nan_Prim2SF in N. by rewrite N.
Qed.

(** ** The comprehensive metric set *)

Lemma py_add_ratio_values a b :
  ratio_value a → ratio_value b → ∃ d, py_add a b = Ok d ∧ ratio_value d.
Proof.
  intros [-> | [f ->]] [-> | [g ->]]; cbn.
  - exists (Int 0). split; [reflexivity | by left].
  - eexists. split; [vm_compute; reflexivity | right; eauto].
  - eexists. split; [vm_compute; reflexivity | right; eauto].
  - eexists. split; [reflexivity | right; eauto].
Qed.

Lemma lift2_py_truediv_float x y v :
  lift2 py_truediv x y = Ok v → ∃ f, v = Flt f.
Proof.
  intros H. apply lift2_Ok_inv in H as (a & b & _ & _ & H).
  eapply py_truediv_float, H.
Qed.

Lemma calculate_wrc_plus_float self stats pf v :
  calculate_wrc_plus self stats pf = Ok v → ∃ f, v = Flt f.
Proof.
  unfold calculate_wrc_plus. intros H.
  apply bind_Ok_inv in H as (w & _ & H).
  eapply lift2_py_truediv_float, H.
Qed.

Lemma calculate_ops_plus_float stats pf lo ls v :
  calculate_ops_plus stats pf lo ls = Ok v → ∃ f, v = Flt f.
Proof.
  unfold calculate_ops_plus. intros H.
  apply bind_Ok_inv in H as (basic & _ & H).
  apply bind_Ok_inv in H as (a & _ & H).
  apply bind_Ok_inv in H as (b & _ & H).
  eapply lift2_py_truediv_float, H.
Qed.

Lemma calculate_babip_value stats v :
  calculate_babip stats = Ok v → ratio_value v.
Proof.
  unfold calculate_babip. intros H.
  apply bind_Ok_inv in H as (b & _ & H).
  apply bind_Ok_inv in H as (h & _ & H).
  by apply guarded_ratio_value in H.
Qed.

(** What a successful call of [calculate_comprehensive_player_metrics] went
    through, and the mapping it built. *)
Lemma calculate_comprehensive_player_metrics_inv self stats pf metrics :
  calculate_comprehensive_player_metrics self stats pf = Ok metrics →
  ∃ basic woba wrc babip iso opsp bb_rate k_rate,
    calculate_basic_stats stats = Ok basic
    ∧ calculate_woba self stats = Ok woba
    ∧ calculate_wrc_plus self stats pf = Ok wrc
    ∧ calculate_babip stats = Ok babip
    ∧ calculate_iso stats = Ok iso
    ∧ calculate_ops_plus stats pf default_league_obp default_league_slg
      = Ok opsp
    ∧ ratio_value bb_rate ∧ ratio_value k_rate
    ∧ metrics =
      <["K_Rate" := k_rate]> (<["BB_Rate" := bb_rate]> (<["OPS+" := opsp]>
        (<["ISO" := iso]> (<["BABIP" := babip]> (<["wRC+" := wrc]>
          (<["wOBA" := woba]> (basic ∪ ∅))))))).
Proof.
  unfold calculate_comprehensive_player_metrics. intros H.
  apply bind_Ok_inv in H as (basic & Hb & H).
  apply bind_Ok_inv in H as (woba & Hw & H).
  apply bind_Ok_inv in H as (wrc & Hr & H).
  apply bind_Ok_inv in H as (babip & Hbab & H).
  apply bind_Ok_inv in H as (iso & Hi & H).
  apply bind_Ok_inv in H as (opsp & Ho & H).
  apply bind_Ok_inv in H as (c1 & _ & H).
  apply bind_Ok_inv in H as (bb_rate & Hbb & H).
  apply bind_Ok_inv in H as (c2 & _ & H).
  apply bind_Ok_inv in H as (k_rate & Hk & H).
  injection H as <-.
  apply guarded_ratio_value in Hbb, Hk.
  exists basic, woba, wrc, babip, iso, opsp, bb_rate, k_rate.
  by repeat split.
Qed.

Lemma calculate_comprehensive_player_metrics_dom self stats pf metrics :
  calculate_comprehensive_player_metrics self stats pf = Ok metrics →
  dom metrics = list_to_set metric_names.
Proof.
  intros H.
  apply calculate_comprehensive_player_metrics_inv in H
    as (basic & woba & wrc & babip & iso & opsp & bbr & kr
        & Hb & _ & _ & _ & _ & _ & _ & _ & ->).
  apply calculate_basic_stats_inv in Hb as (avg & obp & slg & ops & -> & _).
  rewrite !dom_insert_L, dom_union_L, !dom_insert_L, !dom_empty_L.
  unfold metric_names. cbn [list_to_set foldr]. set_solver.
Qed.

(** X1. Whenever [calculate_comprehensive_player_metrics] returns, its
    mapping has exactly the eleven metric names as keys: each of them can be
    read without [KeyError], and nothing else is there. *)
Theorem comprehensive_metrics_keys (self : engine) (stats : record)
    (park_factor : num) (metrics : record) :
  calculate_comprehensive_player_metrics self stats park_factor = Ok metrics →
  ∀ k, k ∈ metric_names ↔ ∃ v, getitem metrics k = Ok v.
Proof.
  intros H k.
  apply calculate_comprehensive_player_metrics_dom in H.
  rewrite <- (elem_of_list_to_set (C := gset string)), <- H, elem_of_dom.
  unfold getitem, is_Some.
  split; intros [v E]; exists v; by destruct (metrics !! k); simplify_eq.
Qed.

Lemma comprehensive_metrics_keys_witness :
  ("wRC+"%string ∈ metric_names
   ↔ ∃ v, getitem all_zero_metrics "wRC+" = Ok v)
  ∧ ("HR"%string ∈ metric_names
     ↔ ∃ v, getitem all_zero_metrics "HR" = Ok v).
Proof.
  split;
    apply (comprehensive_metrics_keys __init__ zero_stats default_park_factor
             all_zero_metrics);
    vm_compute; reflexivity.
Defined.

(** X2. The mapping agrees with the stand-alone formulas: each advanced
    metric is the value its own function returns for the record, and the four
    basic statistics are those of [calculate_basic_stats]; no later entry
    overwrites an earlier one. *)
Theorem comprehensive_metrics_agree (self : engine) (stats : record)
    (park_factor : num) (metrics : record) :
  calculate_comprehensive_player_metrics self stats park_factor = Ok metrics →
  getitem metrics "wOBA" = calculate_woba self stats
  ∧ getitem metrics "wRC+" = calculate_wrc_plus self stats park_factor
  ∧ getitem metrics "BABIP" = calculate_babip stats
  ∧ getitem metrics "ISO" = calculate_iso stats
  ∧ getitem metrics "OPS+"
    = calculate_ops_plus stats park_factor
        default_league_obp default_league_slg
  ∧ ∃ basic, calculate_basic_stats stats = Ok basic
      ∧ metrics !! "AVG" = basic !! "AVG"
      ∧ metrics !! "OBP" = basic !! "OBP"
      ∧ metrics !! "SLG" = basic !! "SLG"
      ∧ metrics !! "OPS" = basic !! "OPS".
Proof.
  intros H.
  apply calculate_comprehensive_player_metrics_inv in H
    as (basic & woba & wrc & babip & iso & opsp & bbr & kr
        & Hb & -> & -> & -> & -> & -> & _ & _ & ->).
  pose proof Hb as Hb'.
  apply calculate_basic_stats_inv in Hb' as (avg & obp & slg & ops & -> & _).
  do 5 (split; [reflexivity|]).
  eexists. split; [exact Hb|]. by repeat split.
Qed.

Lemma comprehensive_metrics_agree_witness :
  getitem all_zero_metrics "wOBA" = calculate_woba __init__ zero_stats
  ∧ getitem all_zero_metrics "wRC+"
    = calculate_wrc_plus __init__ zero_stats default_park_factor
  ∧ getitem all_zero_metrics "BABIP" = calculate_babip zero_stats
  ∧ getitem all_zero_metrics "ISO" = calculate_iso zero_stats
  ∧ getitem all_zero_metrics "OPS+"
    = calculate_ops_plus zero_stats default_park_factor
        default_league_obp default_league_slg
  ∧ ∃ basic, calculate_basic_stats zero_stats = Ok basic
      ∧ all_zero_metrics !! "AVG" = basic !! "AVG"
      ∧ all_zero_metrics !! "OBP" = basic !! "OBP"
      ∧ all_zero_metrics !! "SLG" = basic !! "SLG"
      ∧ all_zero_metrics !! "OPS" = basic !! "OPS".
Proof.
  apply (comprehensive_metrics_agree __init__ zero_stats default_park_factor).
  vm_compute. reflexivity.
Defined.

(** X3. The entries of one returned mapping are consistent with each other:
    OPS is the Python sum [OBP + SLG] and ISO the Python difference
    [SLG - AVG] of the entries beside them. *)
Theorem comprehensive_metrics_consistent (self : engine) (stats : record)
    (park_factor : num) (metrics : record) :
  calculate_comprehensive_player_metrics self stats park_factor = Ok metrics →
  ∃ avg obp slg ops iso,
    metrics !! "AVG" = Some avg ∧ metrics !! "OBP" = Some obp
    ∧ metrics !! "SLG" = Some slg ∧ metrics !! "OPS" = Some ops
    ∧ metrics !! "ISO" = Some iso
    ∧ py_add obp slg = Ok ops
    ∧ py_sub slg avg = Ok iso.
Proof.
  intros H.
  apply calculate_comprehensive_player_metrics_inv in H
    as (basic & woba & wrc & babip & iso & opsp & bbr & kr
        & Hb & _ & _ & _ & Hi & _ & _ & _ & ->).
  unfold calculate_iso in Hi. rewrite Hb in Hi. cbn [bind] in Hi.
  apply calculate_basic_stats_inv in Hb
    as (avg & obp & slg & ops & -> & _ & _ & _ & Hops).
  exists avg, obp, slg, ops, iso.
  rewrite (right_id_L ∅ (∪)).
  repeat split; try exact Hops; try exact Hi; reflexivity.
Qed.

Lemma comprehensive_metrics_consistent_witness :
  ∃ avg obp slg ops iso,
    all_zero_metrics !! "AVG" = Some avg ∧ all_zero_metrics !! "OBP" = Some obp
    ∧ all_zero_metrics !! "SLG" = Some slg
    ∧ all_zero_metrics !! "OPS" = Some ops
    ∧ all_zero_metrics !! "ISO" = Some iso
    ∧ py_add obp slg = Ok ops
    ∧ py_sub slg avg = Ok iso.
Proof.
  apply (comprehensive_metrics_consistent __init__ zero_stats
           default_park_factor).
  vm_compute. reflexivity.
Defined.

(** Every value of the mapping is a float or the integer sentinel [0]. *)
Lemma comprehensive_metrics_values self stats pf metrics k v :
  calculate_comprehensive_player_metrics self stats pf = Ok metrics →
  metrics !! k = Some v → ratio_value v.
Proof.
  intros H L.
  apply calculate_comprehensive_player_metrics_inv in H
    as (basic & woba & wrc & babip & iso & opsp & bbr & kr
        & Hb & Hw & Hr & Hbab & Hi & Ho & Rbb & Rk & ->).
  unfold calculate_iso in Hi. rewrite Hb in Hi. cbn [bind] in Hi.
  apply calculate_basic_stats_inv in Hb
    as (avg & obp & slg & ops & -> & Ravg & Robp & Rslg & Hops).
  change (py_sub slg avg = Ok iso) in Hi.
  destruct (py_sub_ratio_values slg avg Rslg Ravg) as (iso' & Hi' & Riso).
  rewrite Hi in Hi'. injection Hi' as <-.
  destruct (py_add_ratio_values obp slg Robp Rslg) as (ops' & Ho' & Rops).
  rewrite Hops in Ho'. injection Ho' as <-.
  apply calculate_woba_value in Hw. apply calculate_babip_value in Hbab.
  apply calculate_wrc_plus_float in Hr. apply calculate_ops_plus_float in Ho.
  rewrite (right_id_L ∅ (∪)) in L.
  repeat (apply lookup_insert_Some in L as [[_ <-] | [_ L]];
          [first [assumption | by right] |]).
  by rewrite lookup_empty in L.
Qed.

(** X4. wRC+ and OPS+ are never the sentinel: whenever the mapping is
    returned they are floats, while every other metric is a float or the
    integer [0]. *)
Theorem comprehensive_metrics_kinds (self : engine) (stats : record)
    (park_factor : num) (metrics : record) :
  calculate_comprehensive_player_metrics self stats park_factor = Ok metrics →
  (∃ f, metrics !! "wRC+" = Some (Flt f))
  ∧ (∃ f, metrics !! "OPS+" = Some (Flt f))
  ∧ ∀ k v, metrics !! k = Some v → v = Int 0 ∨ ∃ f, v = Flt f.
Proof.
  intros H. split; [|split].
  - apply calculate_comprehensive_player_metrics_inv in H
      as (basic & woba & wrc & babip & iso & opsp & bbr & kr
          & _ & _ & Hr & _ & _ & _ & _ & _ & ->).
    apply calculate_wrc_plus_float in Hr as [f ->]. exists f.
    rewrite !lookup_insert_ne by done. apply lookup_insert_eq.
  - apply calculate_comprehensive_player_metrics_inv in H
      as (basic & woba & wrc & babip & iso & opsp & bbr & kr
          & _ & _ & _ & _ & _ & Ho & _ & _ & ->).
    apply calculate_ops_plus_float in Ho as [f ->]. exists f.
    rewrite !lookup_insert_ne by done. apply lookup_insert_eq.
  - intros k v. by apply (comprehensive_metrics_values self stats park_factor).
Qed.

Lemma comprehensive_metrics_kinds_witness :
  (∃ f, all_zero_metrics !! "wRC+" = Some (Flt f))
  ∧ (∃ f, all_zero_metrics !! "OPS+" = Some (Flt f))
  ∧ ∀ k v, all_zero_metrics !! k = Some v → v = Int 0 ∨ ∃ f, v = Flt f.
Proof.
  apply (comprehensive_metrics_kinds __init__ zero_stats default_park_factor).
  vm_compute. reflexivity.
Defined.

(** ** The comparison table *)

(** The loop of [compare_players] cannot raise on two metric sets of ratio
    values, and adds a row for exactly the requested metrics both sets
    have. *)
Lemma compare_loop_total p1 p2 metrics comparison :
  (∀ k v, p1 !! k = Some v → ratio_value v) →
  (∀ k v, p2 !! k = Some v → ratio_value v) →
  ∃ table,
    compare_loop p1 p2 metrics comparison = Ok table
    ∧ dom table
      = dom comparison ∪ (list_to_set metrics ∩ dom p1 ∩ dom p2).
Proof.
  intros R1 R2. revert comparison.
  induction metrics as [|m rest IH]; intros comparison; cbn [compare_loop].
  - exists comparison. split; [reflexivity | set_solver].
  - destruct (p1 !! m) as [v1|] eqn:E1.
    + destruct (p2 !! m) as [v2|] eqn:E2.
      * destruct (py_sub_ratio_values v1 v2 (R1 m v1 E1) (R2 m v2 E2))
          as (d & -> & _).
        cbn [bind].
        destruct (IH (<[m := {| player1 := v1; player2 := v2;
                               difference := d;
                               player1_better := py_gt v1 v2 |}]> comparison))
          as (table & -> & D).
        exists table. split; [reflexivity|].
        rewrite D, dom_insert_L.
        assert (m ∈ dom p1) by (apply elem_of_dom; eauto).
        assert (m ∈ dom p2) by (apply elem_of_dom; eauto).
        set_solver.
      * destruct (IH comparison) as (table & -> & D).
        exists table. split; [reflexivity|].
        apply not_elem_of_dom in E2. set_solver.
    + destruct (IH comparison) as (table & E & D).
      exists table. split.
      * by destruct (p2 !! m).
      * apply not_elem_of_dom in E1. set_solver.
Qed.

(** X5. Once both metric sets are computed, [compare_players] cannot raise,
    and its table has a row for exactly the requested names that are metric
    names: a name that is no metric is skipped silently.  With no list given
    these are the eight default metrics. *)
Theorem compare_players_total (self : engine) (stats_a stats_b : record)
    (metrics : option (list string)) (metrics_a metrics_b : record) :
  calculate_comprehensive_player_metrics self stats_a default_park_factor
  = Ok metrics_a →
  calculate_comprehensive_player_metrics self stats_b default_park_factor
  = Ok metrics_b →
  ∃ table,
    compare_players self stats_a stats_b metrics = Ok table
    ∧ dom table
      = list_to_set (default default_metrics metrics)
        ∩ list_to_set metric_names
    ∧ (metrics = None → dom table = list_to_set default_metrics).
Proof.
  intros Ha Hb. unfold compare_players. rewrite Ha, Hb. cbn [bind].
  destruct (compare_loop_total metrics_a metrics_b
              (default default_metrics metrics) ∅) as (table & -> & D).
  { intros k v. by apply (comprehensive_metrics_values self stats_a
                            default_park_factor metrics_a). }
  { intros k v. by apply (comprehensive_metrics_values self stats_b
                            default_park_factor metrics_b). }
  exists table. split; [reflexivity|].
  apply calculate_comprehensive_player_metrics_dom in Ha, Hb.
  rewrite Ha, Hb, dom_empty_L in D.
  assert (D' : dom table = list_to_set (default default_metrics metrics)
                           ∩ list_to_set metric_names).
  { rewrite D. clear.
    generalize (list_to_set (default default_metrics metrics) : gset string)
               (list_to_set metric_names : gset string).
    intros A B. set_solver. }
  split; [exact D'|].
  intros ->. rewrite D'. cbn [default].
  unfold default_metrics, metric_names. cbn [list_to_set foldr]. set_solver.
Qed.

Lemma trout_metrics_computed :
  calculate_comprehensive_player_metrics __init__ trout_stats
    default_park_factor = Ok trout_metrics.
Proof. vm_compute. reflexivity. Qed.

Lemma betts_metrics_computed :
  calculate_comprehensive_player_metrics __init__ betts_stats
    default_park_factor = Ok betts_metrics.
Proof. vm_compute. reflexivity. Qed.

Lemma compare_players_total_witness :
  ∃ table,
    compare_players __init__ trout_stats betts_stats
      (Some ["AVG"; "HR"; "K_Rate"]%string) = Ok table
    ∧ dom table
      = list_to_set (default default_metrics
                       (Some ["AVG"; "HR"; "K_Rate"]%string))
        ∩ list_to_set metric_names
    ∧ (Some ["AVG"; "HR"; "K_Rate"]%string = None →
       dom table = list_to_set default_metrics).
Proof.
  apply (compare_players_total __init__ trout_stats betts_stats
           (Some ["AVG"; "HR"; "K_Rate"]%string) trout_metrics betts_metrics).
  - exact trout_metrics_computed.
  - exact betts_metrics_computed.
Defined.

Lemma compare_players_row_inv self stats_a stats_b metrics table metric row :
  compare_players self stats_a stats_b metrics = Ok table →
  table !! metric = Some row →
  ∃ metrics_a metrics_b,
    calculate_comprehensive_player_metrics self stats_a default_park_factor
    = Ok metrics_a
    ∧ calculate_comprehensive_player_metrics self stats_b default_park_factor
      = Ok metrics_b
    ∧ metrics_a !! metric = Some (player1 row)
    ∧ metrics_b !! metric = Some (player2 row)
    ∧ py_sub (player1 row) (player2 row) = Ok (difference row)
    ∧ player1_better row = py_gt (player1 row) (player2 row).
Proof.
  unfold compare_players. intros H L.
  apply bind_Ok_inv in H as (pa & Ha & H).
  apply bind_Ok_inv in H as (pb & Hb & H).
  destruct (compare_loop_lookup _ _ _ _ _ _ _ H L)
    as [E | (v1 & v2 & d & E1 & E2 & Hd & ->)];
    [by rewrite lookup_empty in E|].
  exists pa, pb. by repeat split.
Qed.

(** X6. A row of the table holds the two players' values of that metric, as
    [calculate_comprehensive_player_metrics] returns them with the default
    park factor, their Python difference, and whether the first is greater. *)
Theorem compare_players_rows (self : engine) (stats_a stats_b : record)
    (metrics : option (list string)) (table : gmap string comparison_row)
    (metric : string) (row : comparison_row) :
  compare_players self stats_a stats_b metrics = Ok table →
  table !! metric = Some row →
  ∃ metrics_a metrics_b,
    calculate_comprehensive_player_metrics self stats_a default_park_factor
    = Ok metrics_a
    ∧ calculate_comprehensive_player_metrics self stats_b default_park_factor
      = Ok metrics_b
    ∧ metrics_a !! metric = Some (player1 row)
    ∧ metrics_b !! metric = Some (player2 row)
    ∧ py_sub (player1 row) (player2 row) = Ok (difference row)
    ∧ player1_better row = py_gt (player1 row) (player2 row).
Proof.
  unfold compare_players. intros H L.
  apply bind_Ok_inv in H as (pa & Ha & H).
  apply bind_Ok_inv in H as (pb & Hb & H).
  destruct (compare_loop_lookup _ _ _ _ _ _ _ H L)
    as [E | (v1 & v2 & d & E1 & E2 & Hd & ->)];
    [by rewrite lookup_empty in E|].
  exists pa, pb. by repeat split.
Qed.

Lemma compare_players_rows_witness :
  ∃ metrics_a metrics_b,
    calculate_comprehensive_player_metrics __init__ trout_stats
      default_park_factor = Ok metrics_a
    ∧ calculate_comprehensive_player_metrics __init__ betts_stats
        default_park_factor = Ok metrics_b
    ∧ metrics_a !! "AVG" = Some (Flt 0.28329809725158561)
    ∧ metrics_b !! "AVG" = Some (Flt 0.29411764705882354)
    ∧ py_sub (Flt 0.28329809725158561) (Flt 0.29411764705882354)
      = Ok (Flt (-0.010819549807237927))
    ∧ false = py_gt (Flt 0.28329809725158561) (Flt 0.29411764705882354).
Proof.
  apply (compare_players_rows __init__ trout_stats betts_stats
           (Some ["AVG"; "HR"]%string)
           {[ "AVG"%string :=
                {| player1 := Flt 0.28329809725158561;
                   player2 := Flt 0.29411764705882354;
                   difference := Flt (-0.010819549807237927);
                   player1_better := false |} ]}
           "AVG"
           {| player1 := Flt 0.28329809725158561;
              player2 := Flt 0.29411764705882354;
              difference := Flt (-0.010819549807237927);
              player1_better := false |});
    vm_compute; reflexivity.
Defined.

(** X7. Swapping the players swaps the two values of every row, and
    [player1_better] never holds in both directions; comparing a record with
    itself, it holds for no metric. *)
Theorem compare_players_better_asymmetric
    (self : engine) (stats_a stats_b : record) (metrics : option (list string))
    (table_ab table_ba : gmap string comparison_row)
    (metric : string) (row_ab row_ba : comparison_row) :
  compare_players self stats_a stats_b metrics = Ok table_ab →
  compare_players self stats_b stats_a metrics = Ok table_ba →
  table_ab !! metric = Some row_ab →
  table_ba !! metric = Some row_ba →
  player1 row_ab = player2 row_ba
  ∧ player2 row_ab = player1 row_ba
  ∧ (player1_better row_ab && player1_better row_ba = false)
  ∧ (stats_a = stats_b → player1_better row_ab = false).
Proof.
  intros Hab Hba Lab Lba.
  destruct (compare_players_row_inv self stats_a stats_b metrics
              table_ab metric row_ab Hab Lab)
    as (pa & pb & Ha & Hb & A1 & A2 & _ & Ab).
  destruct (compare_players_row_inv self stats_b stats_a metrics
              table_ba metric row_ba Hba Lba)
    as (pb' & pa' & Hb' & Ha' & B1 & B2 & _ & Bb).
  rewrite Ha in Ha'. rewrite Hb in Hb'.
  injection Ha' as <-. injection Hb' as <-.
  rewrite A1 in B2. rewrite A2 in B1.
  injection B1 as B1. injection B2 as B2.
  assert (X : player1_better row_ab && player1_better row_ba = false).
  { rewrite Ab, Bb, B1, B2.
    destruct (py_gt (player2 row_ba) (player1 row_ba)) eqn:G; [|reflexivity].
    by rewrite (py_gt_asym _ _ G). }
  repeat split; try done.
  intros ->. rewrite Ab. rewrite Ha in Hb. injection Hb as <-.
  rewrite A1 in A2. injection A2 as ->. apply py_gt_irrefl.
Qed.

Lemma compare_players_better_asymmetric_witness :
  Flt 0.28329809725158561 = Flt 0.28329809725158561
  ∧ Flt 0.29411764705882354 = Flt 0.29411764705882354
  ∧ (false && true = false)
  ∧ (trout_stats = betts_stats → false = false).
Proof.
  apply (compare_players_better_asymmetric __init__
           trout_stats betts_stats (Some ["AVG"; "HR"]%string)
           {[ "AVG"%string :=
                {| player1 := Flt 0.28329809725158561;
                   player2 := Flt 0.29411764705882354;
                   difference := Flt (-0.010819549807237927);
                   player1_better := false |} ]}
           {[ "AVG"%string :=
                {| player1 := Flt 0.29411764705882354;
                   player2 := Flt 0.28329809725158561;
                   difference := Flt 0.010819549807237927;
                   player1_better := true |} ]}
           "AVG"
           {| player1 := Flt 0.28329809725158561;
              player2 := Flt 0.29411764705882354;
              difference := Flt (-0.010819549807237927);
              player1_better := false |}
           {| player1 := Flt 0.29411764705882354;
              player2 := Flt 0.28329809725158561;
              difference := Flt 0.010819549807237927;
              player1_better := true |});
    vm_compute; reflexivity.
Defined.

(** ** Wins above replacement *)

Lemma calculate_war_approximation_inv self stats fielding position v :
  calculate_war_approximation self stats fielding position = Ok v →
  ∃ x, v = py_max0 x.
Proof.
  unfold calculate_war_approximation. intros H.
  do 6 (apply bind_Ok_inv in H as (? & _ & H)).
  injection H as <-. eauto.
Qed.

(** X8. The WAR approximation is floored at 0: the value returned is the
    integer 0 or a number greater than 0, so it is never negative and never
    a NaN, whatever the record and the position. *)
Theorem war_never_negative (self : engine) (batting_stats : record)
    (fielding_stats : option record) (position : string) (war : num) :
  calculate_war_approximation self batting_stats fielding_stats position
  = Ok war →
  (war = Int 0 ∨ py_gt war (Int 0) = true)
  ∧ py_gt (Int 0) war = false
  ∧ is_nan_num war = false.
Proof.
  intros H. apply calculate_war_approximation_inv in H as [x ->].
  unfold py_max0. destruct (py_gt x (Int 0)) eqn:G.
  - split; [by right|]. split; [by apply py_gt_asym|].
    unfold py_gt in G. destruct (py_cmp x (Int 0)) as [c|] eqn:C; [|done].
    by apply (py_cmp_zero_not_nan x c).
  - split; [by left|]. by split.
Qed.

Lemma war_never_negative_witness :
  (Flt 63.913052085151747 = Int 0
   ∨ py_gt (Flt 63.913052085151747) (Int 0) = true)
  ∧ py_gt (Int 0) (Flt 63.913052085151747) = false
  ∧ is_nan_num (Flt 63.913052085151747) = false.
Proof.
  apply (war_never_negative __init__ trout_stats None "CF").
  vm_compute. reflexivity.
Defined.

(** X9. A position code outside the nine of the adjustment table gets the
    adjustment 0 and raises no [KeyError]; the default position ["OF"] is such
    a code.  So every unlisted position gives the WAR of ["OF"]. *)
Theorem war_unlisted_position (self : engine) (batting_stats : record)
    (fielding_stats : option record) (position : string) :
  position ∉ ["C"; "1B"; "2B"; "3B"; "SS"; "LF"; "CF"; "RF"; "DH"]%string →
  get position_adjustments position (Int 0) = Int 0
  ∧ calculate_war_approximation self batting_stats fielding_stats position
    = calculate_war_approximation self batting_stats fielding_stats "OF".
Proof.
  intros N.
  assert (E : position_adjustments !! position = None).
  { apply not_elem_of_list_to_map_1. cbn [fmap list_fmap fst]. exact N. }
  unfold calculate_war_approximation, get. rewrite E. by split.
Qed.

Lemma war_unlisted_position_witness :
  get position_adjustments "P" (Int 0) = Int 0
  ∧ calculate_war_approximation __init__ trout_stats None "P"
    = calculate_war_approximation __init__ trout_stats None "OF".
Proof.
  apply (war_unlisted_position __init__ trout_stats None "P").
  set_solver.
Defined.

(** ** Floats that are a zero or a NaN *)

Lemma zero_or_nan_mul_r (y z : float) :
  zero_or_nan z → zero_or_nan (y * z)%float.
Proof.
  unfold zero_or_nan. rewrite mul_spec. unfold SF64mul.
  intros [[s E]|E]; rewrite E; destruct (Prim2SF y) as [sy| sy| |sy my ey];
    cbn; eauto.
Qed.

Lemma zero_or_nan_mul_finite (z c : float) :
  zero_or_nan z →
  (∃ s m e, Prim2SF c = S754_finite s m e) →
  zero_or_nan (z * c)%float.
Proof.
  unfold zero_or_nan. rewrite mul_spec. unfold SF64mul.
  intros [[s E]|E] (sc & mc & ec & C); rewrite E, C; cbn; eauto.
Qed.

Lemma zero_or_nan_add (a b : float) :
  zero_or_nan a → zero_or_nan b → zero_or_nan (a + b)%float.
Proof.
  unfold zero_or_nan. rewrite add_spec. unfold SF64add.
  intros [[s E]|E] [[t F]|F]; rewrite E, F; cbn; eauto.
  destruct s, t; cbn; eauto.
Qed.

Lemma zero_or_nan_not_gt (f : float) :
  zero_or_nan f → py_gt (Flt f) (Int 0) = false.
Proof.
  unfold zero_or_nan, py_gt, py_cmp.
  intros [[s E]|E]; rewrite E; reflexivity.
Qed.

Lemma position_adjustment_value (position : string) :
  get position_adjustments position (Int 0) = Int 0
  ∨ ∃ c, get position_adjustments position (Int 0) = Flt c.
Proof.
  unfold get. destruct (position_adjustments !! position) as [v|] eqn:E;
    [|by left].
  right. apply elem_of_list_to_map_2 in E.
  repeat (apply elem_of_cons in E as [[= _ ->]|E]; [by eexists|]).
  by apply elem_of_nil in E.
Qed.

(** X10. A record whose at-bats, walks, sacrifice flies and hit-by-pitches
    add up to the integer 0 has a WAR of exactly the integer 0 at every
    position, as soon as its wRC+ can be computed: all three terms are a zero
    or a NaN, and the floor turns both into 0. *)
Theorem war_without_plate_appearances (self : engine)
    (batting_stats : record) (fielding_stats : option record)
    (position : string) (wrc_plus : num) :
  calculate_wrc_plus self batting_stats default_park_factor = Ok wrc_plus →
  (get batting_stats "AB" (Int 0) + get batting_stats "BB" (Int 0)
   + get batting_stats "SF" (Int 0) + get batting_stats "HBP" (Int 0))%py
  = Ok (Int 0) →
  calculate_war_approximation self batting_stats fielding_stats position
  = Ok (Int 0).
Proof.
  intros W P. unfold calculate_war_approximation. rewrite W, P.
  destruct (calculate_wrc_plus_float _ _ _ _ W) as [x ->].
  cbn [bind].
  assert (Z0 : zero_or_nan 0%float) by (left; by exists false).
  assert (O : ((Flt x - Int 100) / Int 100 * (Int 0 / Int 700) * Int 20)%py
              = Ok (Flt ((x - 100) / 100 * 0 * 20)%float)) by reflexivity.
  rewrite O. cbn [bind].
  assert (R : (Flt 2.0 * (Int 0 / Int 700))%py = Ok (Flt (2.0 * 0)%float))
    by reflexivity.
  assert (A : ∃ c, (get position_adjustments position (Int 0)
                    * (Int 0 / Int 700))%py = Ok (Flt (c * 0)%float)).
  { destruct (position_adjustment_value position) as [->|[c ->]];
      eexists; reflexivity. }
  destruct A as [c ->]. rewrite R. cbn [bind].
  assert (S : (Flt ((x - 100) / 100 * 0 * 20)%float + Flt (c * 0)%float
               + Flt (2.0 * 0)%float)%py
              = Ok (Flt ((x - 100) / 100 * 0 * 20 + c * 0 + 2.0 * 0)%float))
    by reflexivity.
  rewrite S. cbn [bind]. unfold py_max0.
  rewrite zero_or_nan_not_gt; [reflexivity|].
  repeat apply zero_or_nan_add; try by apply zero_or_nan_mul_r.
  apply zero_or_nan_mul_finite; [by apply zero_or_nan_mul_r|].
  do 3 eexists. vm_compute. reflexivity.
Qed.

Lemma war_without_plate_appearances_witness :
  calculate_war_approximation __init__ (dict [("K", Int 3)]%string) None "SS"
  = Ok (Int 0).
Proof.
  apply (war_without_plate_appearances __init__ (dict [("K", Int 3)]%string)
           None "SS" (Flt 439.50199203187259));
    vm_compute; reflexivity.
Defined.

(** ** Pitcher metrics *)

Lemma py_le_not_gt a b : py_le a b = true → py_gt a b = false.
Proof. unfold py_le, py_gt. destruct (py_cmp a b) as [[]|]; done. Qed.

(** X11. Without innings pitched ([IP] absent, zero or negative) the six
    rate metrics are the integer 0 and nothing is divided by [IP]; only the
    strikeout-to-walk ratio is still computed from [K] and [BB]. *)
Theorem pitcher_metrics_without_innings (self : engine) (stats : record) :
  py_le (get stats "IP" (Int 0)) (Int 0) = true →
  calculate_pitcher_metrics self stats =
  let bb := get stats "BB" (Int 0) in
  let k := get stats "K" (Int 0) in
  let* kbb := (if py_gt bb (Int 0) then k / bb
               else if py_gt k (Int 0) then Ok k else Ok (Int 0))%py in
  Ok (dict [("ERA", Int 0); ("WHIP", Int 0); ("FIP", Int 0);
            ("K_per_9", Int 0); ("BB_per_9", Int 0); ("HR_per_9", Int 0);
            ("K_BB_ratio", kbb)]%string).
Proof.
  intros L. pose proof (py_le_not_gt _ _ L) as G.
  unfold calculate_pitcher_metrics, calculate_pitcher_whip,
    calculate_pitcher_fip.
  rewrite L, G. cbn [bind]. apply bind_ext. intros kbb. reflexivity.
Qed.

Lemma pitcher_metrics_without_innings_witness :
  calculate_pitcher_metrics __init__
    (dict [("IP", Flt (-3.1)); ("ER", Int 4); ("K", Int 5); ("BB", Int 2)]
       %string)
  = Ok (dict [("ERA", Int 0); ("WHIP", Int 0); ("FIP", Int 0);
              ("K_per_9", Int 0); ("BB_per_9", Int 0); ("HR_per_9", Int 0);
              ("K_BB_ratio", Flt 2.5)]%string).
Proof.
  apply (pitcher_metrics_without_innings __init__
           (dict [("IP", Flt (-3.1)); ("ER", Int 4); ("K", Int 5);
                  ("BB", Int 2)]%string)).
  vm_compute. reflexivity.
Defined.

(** The two guards on [IP] differ on a NaN: [ip > 0] and [ip <= 0] are both
    false, so FIP is computed (a NaN) while the other rates are 0. *)
Example pitcher_metrics_nan_innings :
  ∃ m fip, calculate_pitcher_metrics __init__
             (dict [("IP", Flt nan); ("K", Int 5)]%string) = Ok m
    ∧ getitem m "ERA" = Ok (Int 0) ∧ getitem m "WHIP" = Ok (Int 0)
    ∧ getitem m "FIP" = Ok fip ∧ is_nan_num fip = true.
Proof. do 2 eexists. repeat split; vm_compute; reflexivity. Qed.

Lemma calculate_pitcher_metrics_inv self stats metrics :
  calculate_pitcher_metrics self stats = Ok metrics →
  let ip := get stats "IP" (Int 0) in
  ∃ era whip fip k9 bb9 hr9 kbb,
    (if py_gt ip (Int 0) then (get stats "ER" (Int 0) * Int 9) / ip
     else Ok (Int 0))%py = Ok era
    ∧ calculate_pitcher_whip stats = Ok whip
    ∧ calculate_pitcher_fip self stats = Ok fip
    ∧ (if py_gt ip (Int 0) then (get stats "K" (Int 0) * Int 9) / ip
       else Ok (Int 0))%py = Ok k9
    ∧ (if py_gt ip (Int 0) then (get stats "BB" (Int 0) * Int 9) / ip
       else Ok (Int 0))%py = Ok bb9
    ∧ (if py_gt ip (Int 0) then (get stats "HR" (Int 0) * Int 9) / ip
       else Ok (Int 0))%py = Ok hr9
    ∧ metrics =
      <["K_BB_ratio" := kbb]> (<["HR_per_9" := hr9]> (<["BB_per_9" := bb9]>
        (<["K_per_9" := k9]> (<["FIP" := fip]> (<["WHIP" := whip]>
          (<["ERA" := era]> ∅)))))).
Proof.
  unfold calculate_pitcher_metrics. intros H. cbv zeta.
  apply bind_Ok_inv in H as (era & He & H).
  apply bind_Ok_inv in H as (whip & Hw & H).
  apply bind_Ok_inv in H as (fip & Hf & H).
  apply bind_Ok_inv in H as (k9 & Hk & H).
  apply bind_Ok_inv in H as (bb9 & Hb & H).
  apply bind_Ok_inv in H as (hr9 & Hh & H).
  apply bind_Ok_inv in H as (kbb & _ & H).
  injection H as <-.
  exists era, whip, fip, k9, bb9, hr9, kbb.
  destruct (py_gt (get stats "IP" (Int 0)) (Int 0)); by repeat split.
Qed.

(** X12. Whenever [calculate_pitcher_metrics] returns, its mapping has
    exactly the seven pitcher metric names as keys, its WHIP and FIP are what
    [calculate_pitcher_whip] and [calculate_pitcher_fip] return on the same
    record, and with [IP > 0] the six rate metrics are floats. *)
Theorem pitcher_metrics_keys (self : engine) (stats metrics : record) :
  calculate_pitcher_metrics self stats = Ok metrics →
  (∀ k, k ∈ pitcher_metric_names ↔ ∃ v, getitem metrics k = Ok v)
  ∧ getitem metrics "WHIP" = calculate_pitcher_whip stats
  ∧ getitem metrics "FIP" = calculate_pitcher_fip self stats
  ∧ (py_gt (get stats "IP" (Int 0)) (Int 0) = true →
     ∀ k, k ∈ ["ERA"; "WHIP"; "FIP"; "K_per_9"; "BB_per_9"; "HR_per_9"]%string →
          ∃ f, getitem metrics k = Ok (Flt f)).
Proof.
  intros H.
  apply calculate_pitcher_metrics_inv in H
    as (era & whip & fip & k9 & bb9 & hr9 & kbb
        & He & Hw & Hf & Hk & Hb & Hh & Hm).
  assert (D : dom metrics = list_to_set pitcher_metric_names).
  { subst metrics. rewrite !dom_insert_L, !dom_empty_L.
    unfold pitcher_metric_names. cbn [list_to_set foldr]. set_solver. }
  split; [|subst metrics; split; [|split]].
  - intros k.
    rewrite <- (elem_of_list_to_set (C := gset string)), <- D, elem_of_dom.
    unfold getitem, is_Some.
    split; intros [v E]; exists v; by destruct (metrics !! k); simplify_eq.
  - by rewrite Hw.
  - by rewrite Hf.
  - intros G k Hk'.
    unfold calculate_pitcher_whip, calculate_pitcher_fip in *.
    assert (L : py_le (get stats "IP" (Int 0)) (Int 0) = false).
    { unfold py_gt in G. unfold py_le.
      by destruct (py_cmp _ _) as [[]|]. }
    rewrite G in *. rewrite L in Hf.
    apply lift2_py_truediv_float in He as [? ->], Hw as [? ->],
      Hk as [? ->], Hb as [? ->], Hh as [? ->].
    apply lift2_Ok_inv in Hf as (q & c & Hq & _ & Hf).
    apply lift2_py_truediv_float in Hq as [? ->].
    assert (∃ f, fip = Flt f) as [? ->].
    { destruct c as [z|g]; cbn in Hf.
      - apply bind_Ok_inv in Hf as (fb & _ & [= <-]). eauto.
      - injection Hf as <-. eauto. }
    repeat (apply elem_of_cons in Hk' as [->|Hk']; [by eexists|]).
    by apply elem_of_nil in Hk'.
Qed.

Lemma pitcher_metrics_keys_witness :
  (∀ k, k ∈ pitcher_metric_names ↔ ∃ v, getitem cole_metrics k = Ok v)
  ∧ getitem cole_metrics "WHIP" = calculate_pitcher_whip cole_stats
  ∧ getitem cole_metrics "FIP" = calculate_pitcher_fip __init__ cole_stats
  ∧ (py_gt (get cole_stats "IP" (Int 0)) (Int 0) = true →
     ∀ k, k ∈ ["ERA"; "WHIP"; "FIP"; "K_per_9"; "BB_per_9"; "HR_per_9"]%string →
          ∃ f, getitem cole_metrics k = Ok (Flt f)).
Proof.
  apply (pitcher_metrics_keys __init__ cole_stats cole_metrics).
  vm_compute. reflexivity.
Defined.

(** ** Which exceptions the formulas can raise *)

Lemma only_overflow_Ok {A} (a : A) : only_overflow (Ok a).
Proof. intros e [=]. Qed.

Lemma only_overflow_bind {A B} (m : result A) (k : A → result B) :
  only_overflow m →
  (∀ a, m = Ok a → only_overflow (k a)) →
  only_overflow (bind m k).
Proof.
  intros Hm Hk e. destruct m as [a|e']; cbn.
  - by apply Hk.
  - intros [= ->]. by apply Hm.
Qed.

Lemma only_overflow_to_float a : only_overflow (to_float a).
Proof.
  destruct a as [z|f]; [|apply only_overflow_Ok].
  unfold to_float, float_of_int. intros e. by case_match; intros [= <-].
Qed.

Lemma only_overflow_floats (a b : num) (op : float → float → float) :
  only_overflow (let* fa := to_float a in let* fb := to_float b in
                 Ok (Flt (op fa fb))).
Proof.
  apply only_overflow_bind; [apply only_overflow_to_float|]. intros fa _.
  apply only_overflow_bind; [apply only_overflow_to_float|]. intros fb _.
  apply only_overflow_Ok.
Qed.

Lemma only_overflow_py_add a b : only_overflow (py_add a b).
Proof.
  destruct a, b; try apply only_overflow_Ok;
    apply (only_overflow_floats _ _ PrimFloat.add).
Qed.

Lemma only_overflow_py_sub a b : only_overflow (py_sub a b).
Proof.
  destruct a, b; try apply only_overflow_Ok;
    apply (only_overflow_floats _ _ PrimFloat.sub).
Qed.

Lemma only_overflow_int_truediv a b : b ≠ 0 → only_overflow (int_truediv a b).
Proof.
  intros N e. unfold int_truediv.
  destruct (Z.eqb_spec b 0); [done|]. by case_match; intros [= <-].
Qed.

(** Dividing an integer by a divisor that is not zero. *)
Lemma only_overflow_truediv_nonzero n d :
  match d with Int z => z ≠ 0 | Flt f => is_zero_float f = false end →
  only_overflow (py_truediv (Int n) d).
Proof.
  destruct d as [z|f]; intros N.
  - by apply only_overflow_int_truediv.
  - unfold py_truediv.
    apply only_overflow_bind; [apply only_overflow_to_float|]. intros fa _.
    cbn [to_float bind]. rewrite N. apply only_overflow_Ok.
Qed.

(** [n / d if d > 0 else 0] *)
Lemma only_overflow_guarded_gt n d :
  only_overflow (if py_gt d (Int 0) then py_truediv (Int n) d
                 else Ok (Int 0)).
Proof.
  destruct (py_gt d (Int 0)) eqn:G; [|apply only_overflow_Ok].
  apply only_overflow_truediv_nonzero. destruct d as [z|f].
  - rewrite py_gt_int in G. lia.
  - by apply positive_float_nonzero.
Qed.

(** [n / d] past the guard [d <= 0] *)
Lemma only_overflow_truediv_not_le n d :
  py_le d (Int 0) = false → only_overflow (py_truediv (Int n) d).
Proof.
  intros L. apply only_overflow_truediv_nonzero. destruct d as [z|f].
  - intros ->. discriminate L.
  - destruct (is_zero_float f) eqn:Z; [|done].
    apply is_zero_float_py_le in Z. congruence.
Qed.

Lemma get_pitching_record stats k :
  pitching_record stats → k ∈ pitching_counts →
  get stats k (Int 0) = Int (zget stats k 0).
Proof.
  intros P Hk. destruct (P k Hk) as [z E]. revert E. unfold get, zget.
  destruct (stats !! k) as [v|]; cbn; [|done]. by intros ->.
Qed.

(** X13. On a pitching record with integer counts, whatever its innings
    pitched, [calculate_pitcher_metrics] raises neither [ZeroDivisionError]
    nor [KeyError]: the guards on [IP] and [BB] cover every division.  The
    only exception left is the [OverflowError] of a count too large for a
    [float]. *)
Theorem pitcher_metrics_never_divide_by_zero (stats : record) (e : exn) :
  pitching_record stats →
  calculate_pitcher_metrics __init__ stats = Raise e →
  e = OverflowError.
Proof.
  intros P. revert e. change (only_overflow
    (calculate_pitcher_metrics __init__ stats)).
  unfold calculate_pitcher_metrics, calculate_pitcher_whip,
    calculate_pitcher_fip.
  rewrite (get_pitching_record stats "ER"), (get_pitching_record stats "H"),
    (get_pitching_record stats "BB"), (get_pitching_record stats "K"),
    (get_pitching_record stats "HR"), (get_pitching_record stats "HBP")
    by (try done; unfold pitching_counts; set_solver).
  set (ip := get stats "IP" (Int 0)).
  cbn [lift2 bind ret_num py_add py_sub py_mul].
  change (getitem (league_constants __init__) "FIP_constant")
    with (Ok (Flt 3.10)).
  repeat (apply only_overflow_bind;
          [first [apply only_overflow_guarded_gt | idtac]|intros ? _]).
  all: try apply only_overflow_Ok.
  - destruct (py_le ip (Int 0)) eqn:L; [apply only_overflow_Ok|].
    apply only_overflow_bind;
      [by apply only_overflow_truediv_not_le|intros q _].
    cbn [bind]. apply only_overflow_py_add.
  - destruct (py_gt (Int (zget stats "BB" 0)) (Int 0)) eqn:G.
    + pose proof (only_overflow_guarded_gt (zget stats "K" 0)
                    (Int (zget stats "BB" 0))) as O.
      by rewrite G in O.
    + destruct (py_gt (Int (zget stats "K" 0)) (Int 0));
        apply only_overflow_Ok.
Qed.

Lemma pitcher_metrics_never_divide_by_zero_witness :
  OverflowError = OverflowError.
Proof.
  apply (pitcher_metrics_never_divide_by_zero
           (dict [("IP", Flt 1.0); ("K", Int (2 ^ 1100))]%string)).
  - intros k Hk. unfold pitching_counts in Hk.
    repeat (apply elem_of_cons in Hk as [->|Hk]; [by eexists|]).
    by apply elem_of_nil in Hk.
  - vm_compute. reflexivity.
Defined.

Lemma only_overflow_guarded_int_truediv a b :
  only_overflow (if 0 <? b then int_truediv a b else Ok (Int 0)).
Proof.
  destruct (Z.ltb_spec 0 b); [|apply only_overflow_Ok].
  apply only_overflow_int_truediv. lia.
Qed.

Lemma only_overflow_calculate_basic_stats stats :
  int_record stats → only_overflow (calculate_basic_stats stats).
Proof.
  intros I. rewrite (calculate_basic_stats_int stats I).
  repeat (apply only_overflow_bind;
          [first [apply only_overflow_guarded_int_truediv
                 |apply only_overflow_py_add]|intros ? _]).
  apply only_overflow_Ok.
Qed.

(** X14. On a batting record of integer counts, [calculate_basic_stats],
    [calculate_babip], [calculate_iso] and [calculate_ops_plus] (with the
    default league values and park factor) raise neither [ZeroDivisionError]
    nor [KeyError]: every division is guarded.  The only exception left is
    the [OverflowError] of a count too large for a [float]. *)
Theorem batting_formulas_never_divide_by_zero (stats : record) (e : exn) :
  int_record stats →
  calculate_basic_stats stats = Raise e
  ∨ calculate_babip stats = Raise e
  ∨ calculate_iso stats = Raise e
  ∨ calculate_ops_plus stats default_park_factor default_league_obp
      default_league_slg = Raise e →
  e = OverflowError.
Proof.
  intros I.
  pose proof (only_overflow_calculate_basic_stats stats I) as B.
  intros [H|[H|[H|H]]]; revert e H.
  - exact B.
  - change (only_overflow (calculate_babip stats)).
    unfold calculate_babip. rewrite !(get_int_record stats _ 0 I).
    cbn [lift2 bind ret_num py_add py_sub].
    apply only_overflow_guarded_gt.
  - change (only_overflow (calculate_iso stats)).
    unfold calculate_iso.
    apply only_overflow_bind; [exact B|]. intros basic Hb.
    apply calculate_basic_stats_inv in Hb as (avg & obp & slg & ops & -> & _).
    change (getitem _ "SLG") with (Ok slg).
    change (getitem _ "AVG") with (Ok avg).
    rewrite lift2_Ok. apply only_overflow_py_sub.
  - change (only_overflow (calculate_ops_plus stats default_park_factor
              default_league_obp default_league_slg)).
    destruct (calculate_basic_stats stats) as [basic|e'] eqn:Hb.
    + destruct (calculate_ops_plus_unfold stats default_park_factor
                  0.320 0.425 basic Hb) as (d & [->|[f ->]] & E);
        unfold default_league_obp, default_league_slg; rewrite E;
        intros e [=].
    + unfold calculate_ops_plus. rewrite Hb. cbn [bind].
      intros e [= <-]. by apply B.
Qed.

Lemma batting_formulas_never_divide_by_zero_witness :
  OverflowError = OverflowError.
Proof.
  apply (batting_formulas_never_divide_by_zero
           (dict (prod_map id Int <$> [("AB", 1); ("H", 2 ^ 1100)]%string))).
  - apply int_record_dict_ints.
  - left. vm_compute. reflexivity.
Defined.

(** ** The stats the formulas depend on *)

Lemma agree_on_batting s1 s2 :
  agree_on batting_codes s1 s2 →
  s1 !! "AB" = s2 !! "AB" ∧ s1 !! "H" = s2 !! "H" ∧ s1 !! "BB" = s2 !! "BB"
  ∧ s1 !! "IBB" = s2 !! "IBB" ∧ s1 !! "HBP" = s2 !! "HBP"
  ∧ s1 !! "SF" = s2 !! "SF" ∧ s1 !! "K" = s2 !! "K"
  ∧ s1 !! "1B" = s2 !! "1B" ∧ s1 !! "2B" = s2 !! "2B"
  ∧ s1 !! "3B" = s2 !! "3B" ∧ s1 !! "HR" = s2 !! "HR".
Proof.
  intros A. repeat split; apply A; unfold batting_codes;
    by repeat constructor.
Qed.

Lemma calculate_comprehensive_player_metrics_agree self s1 s2 pf :
  agree_on batting_codes s1 s2 →
  calculate_comprehensive_player_metrics self s1 pf
  = calculate_comprehensive_player_metrics self s2 pf.
Proof.
  intros A. apply agree_on_batting in A
    as (E1 & E2 & E3 & E4 & E5 & E6 & E7 & E8 & E9 & E10 & E11).
  unfold calculate_comprehensive_player_metrics, calculate_ops_plus,
    calculate_iso, calculate_babip, calculate_wrc_plus, calculate_woba,
    calculate_basic_stats, get.
  by rewrite E1, E2, E3, E4, E5, E6, E7, E8, E9, E10, E11.
Qed.

(** X15. The metrics depend on eleven batting stats only (AB, H, BB, IBB,
    HBP, SF, K, 1B, 2B, 3B, HR): two records that agree on them get the same
    metric set, the same comparison tables and the same WAR at every
    position, whatever else they hold (RBI, R, SB, ...). *)
Theorem batting_metrics_depend_on_batting_codes (self : engine)
    (stats1 stats2 other : record) (park_factor : num)
    (metrics : option (list string)) (fielding_stats : option record)
    (position : string) :
  agree_on batting_codes stats1 stats2 →
  calculate_comprehensive_player_metrics self stats1 park_factor
  = calculate_comprehensive_player_metrics self stats2 park_factor
  ∧ compare_players self stats1 other metrics
    = compare_players self stats2 other metrics
  ∧ compare_players self other stats1 metrics
    = compare_players self other stats2 metrics
  ∧ calculate_war_approximation self stats1 fielding_stats position
    = calculate_war_approximation self stats2 fielding_stats position.
Proof.
  intros A.
  pose proof (calculate_comprehensive_player_metrics_agree self _ _
                default_park_factor A) as C.
  split; [by apply calculate_comprehensive_player_metrics_agree|].
  split; [unfold compare_players; by rewrite C|].
  split; [unfold compare_players; by rewrite C|].
  apply agree_on_batting in A
    as (E1 & E2 & E3 & E4 & E5 & E6 & E7 & E8 & E9 & E10 & E11).
  unfold calculate_war_approximation, calculate_wrc_plus, calculate_woba, get.
  by rewrite E1, E3, E4, E5, E6, E8, E9, E10, E11.
Qed.

Lemma batting_metrics_depend_on_batting_codes_witness :
  calculate_comprehensive_player_metrics __init__ betts_stats
    default_park_factor
  = calculate_comprehensive_player_metrics __init__
      (delete "RBI"%string (<["SB" := Int 0]> betts_stats))
      default_park_factor
  ∧ compare_players __init__ betts_stats trout_stats None
    = compare_players __init__
        (delete "RBI"%string (<["SB" := Int 0]> betts_stats))
        trout_stats None
  ∧ compare_players __init__ trout_stats betts_stats None
    = compare_players __init__ trout_stats
        (delete "RBI"%string (<["SB" := Int 0]> betts_stats)) None
  ∧ calculate_war_approximation __init__ betts_stats None "RF"
    = calculate_war_approximation __init__
        (delete "RBI"%string (<["SB" := Int 0]> betts_stats)) None "RF".
Proof.
  apply (batting_metrics_depend_on_batting_codes __init__ betts_stats
           (delete "RBI"%string (<["SB" := Int 0]> betts_stats))
           trout_stats default_park_factor None None "RF").
  intros k Hk. unfold batting_codes in Hk.
  repeat (apply elem_of_cons in Hk as [->|Hk]; [reflexivity|]).
  by apply elem_of_nil in Hk.
Defined.

Lemma agree_on_pitching s1 s2 :
  agree_on pitching_codes s1 s2 →
  s1 !! "IP" = s2 !! "IP" ∧ s1 !! "ER" = s2 !! "ER" ∧ s1 !! "H" = s2 !! "H"
  ∧ s1 !! "BB" = s2 !! "BB" ∧ s1 !! "K" = s2 !! "K"
  ∧ s1 !! "HR" = s2 !! "HR" ∧ s1 !! "HBP" = s2 !! "HBP".
Proof.
  intros A. repeat split; apply A; unfold pitching_codes;
    by repeat constructor.
Qed.

(** X16. The pitcher metrics depend on seven pitching stats only (IP, ER, H,
    BB, K, HR, HBP): two records that agree on them get the same metrics.  An
    ERA or a WHIP that the record supplies is never read. *)
Theorem pitcher_metrics_depend_on_pitching_codes (self : engine)
    (stats1 stats2 : record) :
  agree_on pitching_codes stats1 stats2 →
  calculate_pitcher_metrics self stats1 = calculate_pitcher_metrics self stats2
  ∧ calculate_pitcher_whip stats1 = calculate_pitcher_whip stats2
  ∧ calculate_pitcher_fip self stats1 = calculate_pitcher_fip self stats2.
Proof.
  intros A. apply agree_on_pitching in A
    as (E1 & E2 & E3 & E4 & E5 & E6 & E7).
  unfold calculate_pitcher_metrics, calculate_pitcher_whip,
    calculate_pitcher_fip, get.
  by rewrite E1, E2, E3, E4, E5, E6, E7.
Qed.

Lemma pitcher_metrics_depend_on_pitching_codes_witness :
  calculate_pitcher_metrics __init__ cole_stats
  = calculate_pitcher_metrics __init__
      (delete "WHIP"%string (<["ERA" := Flt 9.99]> cole_stats))
  ∧ calculate_pitcher_whip cole_stats
    = calculate_pitcher_whip
        (delete "WHIP"%string (<["ERA" := Flt 9.99]> cole_stats))
  ∧ calculate_pitcher_fip __init__ cole_stats
    = calculate_pitcher_fip __init__
        (delete "WHIP"%string (<["ERA" := Flt 9.99]> cole_stats)).
Proof.
  apply (pitcher_metrics_depend_on_pitching_codes __init__ cole_stats
           (delete "WHIP"%string (<["ERA" := Flt 9.99]> cole_stats))).
  intros k Hk. unfold pitching_codes in Hk.
  repeat (apply elem_of_cons in Hk as [->|Hk]; [reflexivity|]).
  by apply elem_of_nil in Hk.
Defined.

(** * Properties of the demonstration script and of the dashboard *)

Lemma py_cmp_int_not_nan a z c :
  py_cmp a (Int z) = Some c → is_nan_num a = false.
Proof.
  destruct a as [x|f]; [reflexivity|]. cbn.
  destruct (is_nan f) eqn:N; [|reflexivity].
  apply is_nan_Prim2SF in N. by rewrite N.
Qed.

(** What [min(100, v)] can be. *)
Lemma py_min_100 v :
  py_gt (py_min (Int 100) v) (Int 100) = false
  ∧ is_nan_num (py_min (Int 100) v) = false.
Proof.
  unfold py_min, py_lt, py_gt.
  destruct (py_cmp v (Int 100)) as [[]|] eqn:C; try done.
  rewrite C. split; [done|]. by apply (py_cmp_int_not_nan v 100 Lt).
Qed.

Lemma comprehensive_metrics_getitem self stats pf metrics k :
  calculate_comprehensive_player_metrics self stats pf = Ok metrics →
  k ∈ metric_names →
  ∃ v, getitem metrics k = Ok v ∧ ratio_value v.
Proof.
  intros H Hk.
  pose proof (calculate_comprehensive_player_metrics_dom _ _ _ _ H) as D.
  assert (is_Some (metrics !! k)) as [v E].
  { apply elem_of_dom. rewrite D. by apply elem_of_list_to_set. }
  exists v. unfold getitem. rewrite E. split; [reflexivity|].
  by apply (comprehensive_metrics_values self stats pf metrics k v).
Qed.

(** A ratio value times an integer literal of the chart. *)
Lemma ratio_value_scaled v (c : Z) (cf : float) :
  float_of_int c = Ok cf →
  ratio_value v → ∃ w, py_mul v (Int c) = Ok w.
Proof.
  intros F [-> | [f ->]]; cbn; [eauto|]. rewrite F. cbn. eauto.
Qed.

(** X17. For every record whose metrics the engine computes, the radar chart
    gets its six points, in the order AVG, OBP, SLG, wRC+, ISO, BABIP, and
    no value is above 100 or a NaN.  (There is no floor: see
    [radar_value_below_zero].) *)
Theorem radar_values_capped (player_stats metrics : record) :
  calculate_comprehensive_player_metrics __init__ player_stats
    default_park_factor = Ok metrics →
  ∃ points,
    Dashboard.create_player_metrics_chart player_stats = Ok points
    ∧ points.*1 = ["AVG"; "OBP"; "SLG"; "wRC+"; "ISO"; "BABIP"]%string
    ∧ ∀ k v, (k, v) ∈ points →
        py_gt v (Int 100) = false ∧ is_nan_num v = false.
Proof.
  intros H. unfold Dashboard.create_player_metrics_chart,
    Dashboard.get_analytics_engine. rewrite H. cbn [bind].
  assert (G : ∀ k, k ∈ metric_names →
            ∃ v, getitem metrics k = Ok v ∧ ratio_value v)
    by (intros k; by apply comprehensive_metrics_getitem with (1 := H)).
  destruct (G "AVG"%string) as (avg & -> & Ravg);
    [by repeat constructor|].
  destruct (G "OBP"%string) as (obp & -> & Robp);
    [by repeat constructor|].
  destruct (G "SLG"%string) as (slg & -> & Rslg);
    [by repeat constructor|].
  destruct (G "wRC+"%string) as (wrc & -> & Rwrc);
    [by repeat constructor|].
  destruct (G "ISO"%string) as (iso & -> & Riso);
    [by repeat constructor|].
  destruct (G "BABIP"%string) as (babip & -> & Rbabip);
    [by repeat constructor|].
  rewrite !lift2_Ok.
  destruct (ratio_value_scaled avg 400 400 eq_refl Ravg) as [a ->].
  destruct (ratio_value_scaled obp 250 250 eq_refl Robp) as [o ->].
  destruct (ratio_value_scaled slg 200 200 eq_refl Rslg) as [s ->].
  destruct (ratio_value_scaled iso 400 400 eq_refl Riso) as [i ->].
  destruct (ratio_value_scaled babip 330 330 eq_refl Rbabip) as [b ->].
  cbn [bind]. eexists. split; [reflexivity|]. split; [reflexivity|].
  intros k v Hkv.
  repeat (apply elem_of_cons in Hkv as [[= _ ->]|Hkv]; [apply py_min_100|]).
  by apply elem_of_nil in Hkv.
Qed.

Lemma radar_values_capped_witness :
  ∃ points,
    Dashboard.create_player_metrics_chart trout_stats = Ok points
    ∧ points.*1 = ["AVG"; "OBP"; "SLG"; "wRC+"; "ISO"; "BABIP"]%string
    ∧ ∀ k v, (k, v) ∈ points →
        py_gt v (Int 100) = false ∧ is_nan_num v = false.
Proof.
  apply (radar_values_capped trout_stats trout_metrics).
  vm_compute. reflexivity.
Defined.

(** The chart's axis runs from 0 to 100, but a value is not floored at 0:
    explicit singles below the hits make ISO negative. *)
Example radar_value_below_zero :
  Dashboard.create_player_metrics_chart no_singles_stats
  = Ok [("AVG", Int 100); ("OBP", Int 100); ("SLG", Flt 0);
        ("wRC+", Int 100); ("ISO", Flt (-200)); ("BABIP", Int 100)]%string.
Proof. vm_compute. reflexivity. Qed.

(** ** Ratings *)

Lemma cmp_Z_SF_mono x y F :
  x < y →
  cmp_Z_SF y F = Some Lt ∨ cmp_Z_SF y F = Some Eq →
  cmp_Z_SF x F = Some Lt.
Proof.
  intros L.
  assert (C : ∀ a b c, a < b → (b ?= c) = Lt ∨ (b ?= c) = Eq →
                       (a ?= c) = Lt).
  { intros a b c Hab H.
    destruct (Z.compare_spec b c), (Z.compare_spec a c);
      try reflexivity; try lia; by destruct H. }
  destruct F as [s|s| |s m e]; unfold cmp_Z_SF.
  - intros H. f_equal. apply (C x y 0 L).
    destruct H as [[= H]|[= H]]; auto.
  - by destruct s; intros [|].
  - by intros [|].
  - set (v := cond_Zopp s (Z.pos m)). clearbody v.
    destruct e as [|p|p]; intros H; f_equal.
    + apply (C x y _ L). destruct H as [[= H]|[= H]]; auto.
    + apply (C x y _ L). destruct H as [[= H]|[= H]]; auto.
    + assert (0 < 2 ^ Z.pos p) by (apply Z.pow_pos_nonneg; lia).
      apply (C _ (y * 2 ^ Z.pos p) _); [nia|].
      destruct H as [[= H]|[= H]]; auto.
Qed.

(** [a >= y] and [x < y] give [a > x]. *)
Lemma py_ge_gt_trans a x y :
  x < y → py_ge a (Int y) = true → py_gt a (Int x) = true.
Proof.
  intros L. unfold py_ge, py_gt. destruct a as [z|f]; cbn.
  - destruct (Z.compare_spec z y), (Z.compare_spec z x); try done; lia.
  - destruct (cmp_Z_SF y (Prim2SF f)) as [[]|] eqn:C; try done; intros _.
    + by rewrite (cmp_Z_SF_mono x y _ L (or_intror C)).
    + by rewrite (cmp_Z_SF_mono x y _ L (or_introl C)).
Qed.

Lemma format_f_ratio_value v : ratio_value v → format_f v = Ok tt.
Proof. by intros [-> | [f ->]]. Qed.

(** X18. On the metrics the engine computes, [evaluate_player_performance]
    raises nothing, and the rating agrees with the sentence that follows it:
    the three ratings above the league average come with "better than league
    average", BELOW AVERAGE with "below league average", and LEAGUE AVERAGE
    with "below league average" exactly when wRC+ equals 100. *)
Theorem player_rating_agrees_with_analysis (self : engine)
    (stats : record) (park_factor : num) (metrics : record) :
  calculate_comprehensive_player_metrics self stats park_factor = Ok metrics →
  ∃ rating standing wrc_plus,
    MLBAnalyticsDemo.evaluate_player_performance metrics
    = Ok (rating, standing)
    ∧ getitem metrics "wRC+" = Ok wrc_plus
    ∧ match rating with
      | MLBAnalyticsDemo.MVP_CANDIDATE
      | MLBAnalyticsDemo.ALL_STAR_LEVEL
      | MLBAnalyticsDemo.ABOVE_AVERAGE =>
          standing = MLBAnalyticsDemo.better_than_league_average
      | MLBAnalyticsDemo.LEAGUE_AVERAGE =>
          standing = MLBAnalyticsDemo.below_league_average
          ↔ py_eq wrc_plus (Int 100) = true
      | MLBAnalyticsDemo.BELOW_AVERAGE =>
          standing = MLBAnalyticsDemo.below_league_average
      end.
Proof.
  intros H.
  apply calculate_comprehensive_player_metrics_inv in H
    as (basic & woba & wrc & babip & iso & opsp & bbr & kr
        & _ & _ & Hr & _ & _ & _ & _ & _ & ->).
  apply calculate_wrc_plus_float in Hr as [f ->].
  assert (G : getitem (<["K_Rate":=kr]> (<["BB_Rate":=bbr]> (<["OPS+":=opsp]>
                (<["ISO":=iso]> (<["BABIP":=babip]> (<["wRC+":=Flt f]>
                (<["wOBA":=woba]> (basic ∪ ∅))))))))
              "wRC+" = Ok (Flt f)).
  { unfold getitem. rewrite !lookup_insert_ne by done.
    by rewrite lookup_insert_eq. }
  unfold MLBAnalyticsDemo.evaluate_player_performance. rewrite G.
  cbn [bind format_f to_float].
  assert (S1 : (Flt f - Int 100)%py = Ok (Flt (f - 100))) by reflexivity.
  assert (S2 : (Int 100 - Flt f)%py = Ok (Flt (100 - f))) by reflexivity.
  unfold ret_num in *. rewrite S1, S2. cbn [bind format_f to_float].
  destruct (py_ge (Flt f) (Int 140)) eqn:G140.
  { rewrite (py_ge_gt_trans _ 100 140) by (done || lia).
    by do 3 eexists. }
  destruct (py_ge (Flt f) (Int 130)) eqn:G130.
  { rewrite (py_ge_gt_trans _ 100 130) by (done || lia).
    by do 3 eexists. }
  destruct (py_ge (Flt f) (Int 115)) eqn:G115.
  { rewrite (py_ge_gt_trans _ 100 115) by (done || lia).
    by do 3 eexists. }
  unfold py_ge, py_gt.
  destruct (py_cmp (Flt f) (Int 100)) as [[]|] eqn:C;
    eexists _, _, (Flt f);
    (split; [reflexivity|]); (split; [reflexivity|]);
    unfold py_eq; rewrite ?C; done.
Qed.

Lemma player_rating_agrees_with_analysis_witness :
  ∃ rating standing wrc_plus,
    MLBAnalyticsDemo.evaluate_player_performance trout_metrics
    = Ok (rating, standing)
    ∧ getitem trout_metrics "wRC+" = Ok wrc_plus
    ∧ match rating with
      | MLBAnalyticsDemo.MVP_CANDIDATE
      | MLBAnalyticsDemo.ALL_STAR_LEVEL
      | MLBAnalyticsDemo.ABOVE_AVERAGE =>
          standing = MLBAnalyticsDemo.better_than_league_average
      | MLBAnalyticsDemo.LEAGUE_AVERAGE =>
          standing = MLBAnalyticsDemo.below_league_average
          ↔ py_eq wrc_plus (Int 100) = true
      | MLBAnalyticsDemo.BELOW_AVERAGE =>
          standing = MLBAnalyticsDemo.below_league_average
      end.
Proof.
  apply (player_rating_agrees_with_analysis __init__ trout_stats
           default_park_factor trout_metrics).
  vm_compute. reflexivity.
Defined.

(** A batter without a plate appearance has a wRC+ of 439.5 and is rated an
    MVP candidate. *)
Example player_rating_without_plate_appearances :
  MLBAnalyticsDemo.evaluate_player_performance all_zero_metrics
  = Ok (MLBAnalyticsDemo.MVP_CANDIDATE,
        MLBAnalyticsDemo.better_than_league_average).
Proof. vm_compute. reflexivity. Qed.

Lemma calculate_pitcher_fip_value self stats v :
  calculate_pitcher_fip self stats = Ok v → ratio_value v.
Proof.
  unfold calculate_pitcher_fip.
  destruct (py_le _ _); [intros [= <-]; by left|]. intros H.
  apply lift2_Ok_inv in H as (q & c & Hq & _ & H).
  apply lift2_py_truediv_float in Hq as [x ->]. right.
  destruct c as [z|g]; cbn in H.
  - apply bind_Ok_inv in H as (fb & _ & [= <-]). eauto.
  - injection H as <-. eauto.
Qed.

(** X19. On the metrics the engine computes, [evaluate_pitcher_performance]
    raises nothing; and a pitcher without innings pitched, whose ERA and FIP
    are the sentinel 0, is rated ACE LEVEL with a performance said to be
    sustainable. *)
Theorem pitcher_rating_without_innings (self : engine)
    (stats metrics : record) :
  calculate_pitcher_metrics self stats = Ok metrics →
  ∃ rating reading,
    MLBAnalyticsDemo.evaluate_pitcher_performance metrics
    = Ok (rating, reading)
    ∧ (py_le (get stats "IP" (Int 0)) (Int 0) = true →
       rating = MLBAnalyticsDemo.P_ACE_LEVEL
       ∧ reading = MLBAnalyticsDemo.performance_is_sustainable).
Proof.
  intros H.
  apply calculate_pitcher_metrics_inv in H
    as (era & whip & fip & k9 & bb9 & hr9 & kbb
        & He & Hw & Hf & _ & _ & _ & ->).
  unfold MLBAnalyticsDemo.evaluate_pitcher_performance.
  change (getitem _ "ERA") with (Ok era).
  change (getitem _ "FIP") with (Ok fip).
  cbn [bind].
  pose proof (guarded_ratio_value _ _ _ _ He) as Re.
  pose proof (calculate_pitcher_fip_value _ _ _ Hf) as Rf.
  rewrite (format_f_ratio_value era Re), (format_f_ratio_value fip Rf).
  cbn [bind]. do 2 eexists. split; [reflexivity|].
  intros L. pose proof (py_le_not_gt _ _ L) as G.
  rewrite G in He. injection He as <-.
  unfold calculate_pitcher_fip in Hf. rewrite L in Hf. injection Hf as <-.
  by split.
Qed.

Lemma pitcher_rating_without_innings_witness :
  ∃ rating reading,
    MLBAnalyticsDemo.evaluate_pitcher_performance
      (dict [("ERA", Int 0); ("WHIP", Int 0); ("FIP", Int 0);
             ("K_per_9", Int 0); ("BB_per_9", Int 0); ("HR_per_9", Int 0);
             ("K_BB_ratio", Flt 2.5)]%string)
    = Ok (rating, reading)
    ∧ (py_le (get (dict [("K", Int 5); ("BB", Int 2)]%string) "IP" (Int 0))
         (Int 0) = true →
       rating = MLBAnalyticsDemo.P_ACE_LEVEL
       ∧ reading = MLBAnalyticsDemo.performance_is_sustainable).
Proof.
  apply (pitcher_rating_without_innings __init__
           (dict [("K", Int 5); ("BB", Int 2)]%string)).
  vm_compute. reflexivity.
Defined.

(** ** The comparison of the demonstration *)

Lemma comparison_loop_total m1 m2 metrics w1 w2 :
  (∀ k, k ∈ metrics →
        ∃ v1 v2, getitem m1 k = Ok v1 ∧ ratio_value v1
                 ∧ getitem m2 k = Ok v2 ∧ ratio_value v2) →
  ∃ w1' w2',
    MLBAnalyticsDemo.comparison_loop m1 m2 metrics w1 w2 = Ok (w1', w2')
    ∧ w1 ≤ w1' ∧ w2 ≤ w2'
    ∧ (w1' - w1) + (w2' - w2) ≤ Z.of_nat (length metrics)
    ∧ (m1 = m2 → w1' = w1 ∧ w2' = w2).
Proof.
  revert w1 w2. induction metrics as [|k rest IH]; intros w1 w2 Hk.
  - exists w1, w2. cbn. repeat split; lia.
  - destruct (Hk k) as (v1 & v2 & G1 & R1 & G2 & R2); [by left|].
    cbn [MLBAnalyticsDemo.comparison_loop]. rewrite G1, G2. cbn [bind].
    rewrite (format_f_ratio_value v1 R1), (format_f_ratio_value v2 R2).
    cbn [bind].
    assert (Hrest : ∀ k', k' ∈ rest →
              ∃ v1 v2, getitem m1 k' = Ok v1 ∧ ratio_value v1
                       ∧ getitem m2 k' = Ok v2 ∧ ratio_value v2)
      by (intros k' Hk'; apply Hk; by right).
    destruct (py_gt v1 v2) eqn:C1; [|destruct (py_gt v2 v1) eqn:C2];
      cbn [fst snd].
    + destruct (IH (w1 + 1) w2 Hrest) as (a & b & -> & ? & ? & ? & E).
      exists a, b. split; [reflexivity|]. cbn [length].
      split; [lia|]. split; [lia|]. split; [lia|]. intros ->.
      rewrite G1 in G2. injection G2 as ->.
      by rewrite py_gt_irrefl in C1.
    + destruct (IH w1 (w2 + 1) Hrest) as (a & b & -> & ? & ? & ? & E).
      exists a, b. split; [reflexivity|]. cbn [length].
      split; [lia|]. split; [lia|]. split; [lia|]. intros ->.
      rewrite G1 in G2. injection G2 as ->.
      by rewrite py_gt_irrefl in C2.
    + destruct (IH w1 w2 Hrest) as (a & b & -> & ? & ? & ? & E).
      exists a, b. split; [reflexivity|]. cbn [length].
      split; [lia|]. split; [lia|]. split; [lia|]. exact E.
Qed.

(** X20. When the sample data hold the two batters and the engine computes
    their metrics, [demo_player_comparison] raises nothing: the seven metrics
    it compares are all there.  The two tallies are not negative and add up to
    at most 7, and two batters with the same stats tie 0 to 0. *)
Theorem demo_player_comparison_tallies (self : MLBAnalyticsDemo.demo)
    (p1_info p2_info : MLBAnalyticsDemo.batter_info)
    (p1_metrics p2_metrics : record) :
  MLBAnalyticsDemo.batters self !! "Mookie Betts"%string = Some p1_info →
  MLBAnalyticsDemo.batters self !! "Mike Trout"%string = Some p2_info →
  calculate_comprehensive_player_metrics (MLBAnalyticsDemo.engine self)
    (MLBAnalyticsDemo.stats p1_info) default_park_factor = Ok p1_metrics →
  calculate_comprehensive_player_metrics (MLBAnalyticsDemo.engine self)
    (MLBAnalyticsDemo.stats p2_info) default_park_factor = Ok p2_metrics →
  ∃ p1_wins p2_wins edge,
    MLBAnalyticsDemo.demo_player_comparison self
    = Ok (p1_wins, p2_wins, edge)
    ∧ 0 ≤ p1_wins ∧ 0 ≤ p2_wins ∧ p1_wins + p2_wins ≤ 7
    ∧ (MLBAnalyticsDemo.stats p1_info = MLBAnalyticsDemo.stats p2_info →
       p1_wins = 0 ∧ p2_wins = 0
       ∧ edge = MLBAnalyticsDemo.STATISTICALLY_EVEN).
Proof.
  intros B1 B2 H1 H2.
  unfold MLBAnalyticsDemo.demo_player_comparison, MLBAnalyticsDemo.batter.
  rewrite B1, B2. cbn [bind]. rewrite H1, H2. cbn [bind].
  destruct (comparison_loop_total p1_metrics p2_metrics
              MLBAnalyticsDemo.comparison_metrics 0 0)
    as (w1 & w2 & -> & L1 & L2 & L & E).
  { intros k Hk.
    assert (Hk' : k ∈ metric_names).
    { unfold MLBAnalyticsDemo.comparison_metrics in Hk.
      repeat (apply elem_of_cons in Hk as [->|Hk]; [by repeat constructor|]).
      by apply elem_of_nil in Hk. }
    destruct (comprehensive_metrics_getitem _ _ _ _ k H1 Hk')
      as (v1 & G1 & R1).
    destruct (comprehensive_metrics_getitem _ _ _ _ k H2 Hk')
      as (v2 & G2 & R2).
    by exists v1, v2. }
  cbn [bind fst snd]. do 3 eexists. split; [reflexivity|].
  cbn [length MLBAnalyticsDemo.comparison_metrics] in L.
  split; [lia|]. split; [lia|]. split; [lia|].
  intros S. rewrite S, H2 in H1. injection H1 as <-.
  destruct E as [-> ->]; [reflexivity|]. by repeat split.
Qed.

Lemma demo_player_comparison_tallies_witness :
  ∃ p1_wins p2_wins edge,
    MLBAnalyticsDemo.demo_player_comparison betts_trout_demo
    = Ok (p1_wins, p2_wins, edge)
    ∧ 0 ≤ p1_wins ∧ 0 ≤ p2_wins ∧ p1_wins + p2_wins ≤ 7
    ∧ (betts_stats = trout_stats →
       p1_wins = 0 ∧ p2_wins = 0
       ∧ edge = MLBAnalyticsDemo.STATISTICALLY_EVEN).
Proof.
  apply (demo_player_comparison_tallies betts_trout_demo
           {| MLBAnalyticsDemo.team := "LAD";
              MLBAnalyticsDemo.position := "OF";
              MLBAnalyticsDemo.stats := betts_stats |}
           {| MLBAnalyticsDemo.team := "LAA";
              MLBAnalyticsDemo.position := "OF";
              MLBAnalyticsDemo.stats := trout_stats |}
           betts_metrics trout_metrics);
    vm_compute; reflexivity.
Defined.

(** The run of the script on its sample data: Betts leads in AVG, OBP, SLG,
    wOBA, wRC+ and ISO, Trout in BABIP. *)
Example demo_player_comparison_sample :
  MLBAnalyticsDemo.demo_player_comparison betts_trout_demo
  = Ok (6, 1, MLBAnalyticsDemo.STATISTICAL_EDGE_player1).
Proof. vm_compute. reflexivity. Qed.
